(** * NutriScan: the barcode-to-nutrition pipeline of [nutriscan_app.py]

    A shallow embedding of [load_nutrition_db], [save_nutrition_db],
    [fetch_barcode_data], [scan_barcode] and [check_nutrition], and the
    properties of the resolution pipeline proved on it.

    Conventions of the embedding.
    - A Python value is a [pyval]; a [dict] with [str] keys is a
      [gmap string pyval].  A Python [str] is held as the [string] of its
      UTF-8 encoding, so [bytes.decode("utf-8")] is a validity check.
    - Effects are threaded through a [world]: the content of
      [nutrition_db.json], whether the disk accepts writes and how a
      refused write fails, the answers of the remote server, and a trace
      of what the program did (log records, [st.warning] calls, HTTP
      requests, cache lookups, saves).
    - The values in the store file and in a reply are what the [json]
      module parsed.  It refuses an integer literal of more than 4300
      digits, as [str] refuses to print such an [int]; so an [int] of
      that size reaches the program only as an argument of
      [check_nutrition], and the f-strings over store and reply values
      (the log records, the [Found] line of [main]) always render.
    - A Python exception is the [Raised] outcome of a computation;
      [try_except] is [try: ... except Exception: ...].
    - OpenCV and pyzbar are outside the embedding: an image is given by
      what preprocessing and [pyzbar.decode] yield on it. *)

From Stdlib Require Import ZArith String List Bool Lia.
From Stdlib Require Import Floats.SpecFloat Strings.Byte.
From Stdlib Require Import Numbers.DecimalString.
From stdpp Require Import gmap strings.

Local Open Scope string_scope.
Local Open Scope Z_scope.
Local Open Scope list_scope.

Set Warnings "-register-all".

(** ** Python values *)

(** [int] and [float].  A float is the Standard Library's specification
    float: zero, infinity, NaN, or a finite [(-1)^s * m * 2^e]. *)
Inductive pynum :=
| NInt (z : Z)
| NFloat (f : spec_float).

(** What [json.load] and [response.json()] produce, and what the program
    builds from it. *)
Inductive pyval :=
| PNone
| PBool (b : bool)
| PNum (n : pynum)
| PStr (s : string)
| PList (l : list pyval)
| PDict (d : gmap string pyval).

Definition PInt (z : Z) : pyval := PNum (NInt z).

Inductive exn :=
| KeyError (key : string)
| TypeError
| AttributeError
| UnicodeDecodeError
| OSError
| RequestException
| JSONDecodeError
| ValueError
| ImageError.

(** *** Numeric comparison

    Python compares [int] with [int], [float] with [float] and [int] with
    [float] by their exact values; every comparison with a NaN is false.
    [xval] is the exact value of a number: a NaN, an infinity, or the
    dyadic rational [m * 2^e]. *)
Inductive xval :=
| XNaN
| XInf (negative : bool)
| XFin (m e : Z).

Definition float_val (f : spec_float) : xval :=
  match f with
  | S754_zero _ => XFin 0 0
  | S754_infinity s => XInf s
  | S754_nan => XNaN
  | S754_finite s m e => XFin (if s then Z.neg m else Z.pos m) e
  end.

Definition num_val (n : pynum) : xval :=
  match n with
  | NInt z => XFin z 0
  | NFloat f => float_val f
  end.

(** [m1 * 2^e1] against [m2 * 2^e2]: both are scaled to the smaller
    exponent and compared as integers. *)
Definition dyadic_compare (m1 e1 m2 e2 : Z) : comparison :=
  let e := Z.min e1 e2 in
  Z.compare (m1 * 2 ^ (e1 - e)) (m2 * 2 ^ (e2 - e)).

Definition xval_compare (x y : xval) : option comparison :=
  match x, y with
  | XNaN, _ | _, XNaN => None
  | XInf true, XInf true => Some Eq
  | XInf false, XInf false => Some Eq
  | XInf true, _ => Some Lt
  | XInf false, _ => Some Gt
  | _, XInf true => Some Gt
  | _, XInf false => Some Lt
  | XFin m1 e1, XFin m2 e2 => Some (dyadic_compare m1 e1 m2 e2)
  end.

Definition num_compare (a b : pynum) : option comparison :=
  xval_compare (num_val a) (num_val b).

(** [bool] is a subclass of [int]: [True] counts as 1 and [False] as 0. *)
Definition as_num (v : pyval) : option pynum :=
  match v with
  | PBool b => Some (NInt (if b then 1 else 0))
  | PNum n => Some n
  | _ => None
  end.

Inductive cmp_op := OpGt | OpLt.

Definition cmp_holds (op : cmp_op) (c : option comparison) : bool :=
  match op, c with
  | OpGt, Some Gt => true
  | OpLt, Some Lt => true
  | _, _ => false
  end.

(** [v == n] for a number [n]; [==] never raises, and a value that is not a
    number is unequal to every number. *)
Definition py_eq_num (v : pyval) (n : pynum) : bool :=
  match as_num v with
  | Some a => match num_compare a n with Some Eq => true | _ => false end
  | None => false
  end.

(** *** Truth value: [bool(v)], as [if v:] and [not v] take it *)
Definition num_truthy (n : pynum) : bool :=
  match num_val n with
  | XFin m _ => negb (m =? 0)
  | _ => true
  end.

Definition py_truthy (v : pyval) : bool :=
  match v with
  | PNone => false
  | PBool b => b
  | PNum n => num_truthy n
  | PStr s => match s with EmptyString => false | _ => true end
  | PList l => match l with [] => false | _ => true end
  | PDict d => negb (bool_decide (size d = 0%nat))
  end.

(** ** Outcomes: a returned value or a raised exception *)
Inductive outcome (A : Type) :=
| Returned (a : A)
| Raised (e : exn).
Arguments Returned {A} a.
Arguments Raised {A} e.

Definition obind {A B} (c : outcome A) (k : A -> outcome B) : outcome B :=
  match c with
  | Returned a => k a
  | Raised e => Raised e
  end.

(** ** [str()], as the f-strings apply it

    Python refuses to print an [int] of more than 4300 decimal digits (the
    default of [sys.set_int_max_str_digits]): [str], [repr] and an
    f-string raise [ValueError] on it, also when the [int] sits inside a
    list or a dict. *)
Definition max_str_int : Z := Eval vm_compute in 10 ^ 4300.

Definition long_int (z : Z) : bool := max_str_int <=? Z.abs z.
Arguments long_int : simpl never.

Fixpoint has_long_int (v : pyval) : bool :=
  match v with
  | PNum (NInt z) => long_int z
  | PList l => existsb has_long_int l
  | PDict d => map_fold (fun _ x found => has_long_int x || found) false d
  | _ => false
  end.

(** [builtin_str] stands for the text of [str] on the values whose
    rendering is not spelled out here: floats (shortest round-trip digits)
    and containers. *)
Section Formatting.
Variable builtin_str : pyval -> string.

Definition int_digits (z : Z) : string := NilZero.string_of_int (Z.to_int z).

(** The text [str(v)] gives when it gives one. *)
Definition render (v : pyval) : string :=
  match v with
  | PNone => "None"
  | PBool true => "True"
  | PBool false => "False"
  | PNum (NInt z) => int_digits z
  | PStr s => s
  | _ => builtin_str v
  end.

(** [str(z)] for an [int]. *)
Definition int_str (z : Z) : outcome string :=
  if long_int z then Raised ValueError else Returned (int_digits z).

(** [str(v)], which is also what [f"{v}"] puts in the string. *)
Definition py_str (v : pyval) : outcome string :=
  match v with
  | PNum (NInt z) => int_str z
  | _ => if has_long_int v then Raised ValueError else Returned (render v)
  end.
End Formatting.

(** [v.get(key, default)]: only a dict has [get]. *)
Definition py_get (v : pyval) (key : string) (dflt : pyval) : outcome pyval :=
  match v with
  | PDict d => Returned (default dflt (d !! key))
  | _ => Raised AttributeError
  end.

(** [v[key]] for a [str] key. *)
Definition py_getitem (v : pyval) (key : string) : outcome pyval :=
  match v with
  | PDict d =>
      match d !! key with
      | Some x => Returned x
      | None => Raised (KeyError key)
      end
  | _ => Raised TypeError
  end.

(** [v[key] = x] for a [str] key. *)
Definition py_setitem (v : pyval) (key : string) (x : pyval) : outcome pyval :=
  match v with
  | PDict d => Returned (PDict (<[key := x]> d))
  | _ => Raised TypeError
  end.

(** [v > n] and [v < n] for a number [n]: ordering a value that is not a
    number against a number raises [TypeError]. *)
Definition py_cmp (op : cmp_op) (v : pyval) (n : pynum) : outcome bool :=
  match as_num v with
  | Some a => Returned (cmp_holds op (num_compare a n))
  | None => Raised TypeError
  end.

(** [data.decode("utf-8")]: the strict decoder accepts exactly the
    well-formed UTF-8 sequences (no overlong form, no surrogate, nothing
    above U+10FFFF). *)
Definition in_range (lo hi b : N) : bool := (lo <=? b)%N && (b <=? hi)%N.

Definition is_cont (b : N) : bool := in_range 128 191 b.

Fixpoint utf8_valid (bs : list N) : bool :=
  match bs with
  | [] => true
  | b0 :: r0 =>
      if (b0 <=? 127)%N then utf8_valid r0
      else if in_range 194 223 b0 then
        match r0 with
        | b1 :: r1 => is_cont b1 && utf8_valid r1
        | _ => false
        end
      else if in_range 224 239 b0 then
        match r0 with
        | b1 :: b2 :: r2 =>
            (if (b0 =? 224)%N then in_range 160 191 b1
             else if (b0 =? 237)%N then in_range 128 159 b1
             else is_cont b1)
            && is_cont b2 && utf8_valid r2
        | _ => false
        end
      else if in_range 240 244 b0 then
        match r0 with
        | b1 :: b2 :: b3 :: r3 =>
            (if (b0 =? 240)%N then in_range 144 191 b1
             else if (b0 =? 244)%N then in_range 128 143 b1
             else is_cont b1)
            && is_cont b2 && is_cont b3 && utf8_valid r3
        | _ => false
        end
      else false
  end.

Definition decode_utf8 (data : list byte) : outcome string :=
  if utf8_valid (map Byte.to_N data)
  then Returned (string_of_list_byte data)
  else Raised UnicodeDecodeError.

(** ** The world the program runs in *)

(** [nutrition_db.json]: not there; there but [open] fails; there with a
    content on which [json.load] raises [e] ([JSONDecodeError] for a text
    that is not JSON, as an empty or cut file is, [UnicodeDecodeError] for
    bytes that are not text, [ValueError] for an integer literal beyond
    4300 digits); or holding the JSON value [v].  [json.dump] followed by
    [json.load] gives back the value written, so the file is held by its
    parsed content. *)
Inductive file_state :=
| FMissing
| FUnreadable
| FGarbage (e : exn)
| FJson (v : pyval).

(** What [requests.get] and [response.json()] can give: the request raises
    (timeout, no connection), or a response arrives with a status code and
    a body that is JSON or not. *)
Inductive http_reply :=
| NetFails
| Reply (status_code : Z) (json : option pyval).

Inductive level := INFO | WARNING | ERROR.

(** The log records of the program, by the message each one formats; the
    arguments of the f-string are kept in place of the rendered text. *)
Inductive log_msg :=
| MsgCreating
| MsgLoaded
| MsgLoadFailed (e : exn)
| MsgSaved
| MsgSaveFailed (e : exn)
| MsgApiStatus (barcode : string) (status_code : Z)
| MsgNoProduct (barcode : string)
| MsgFetched (barcode : string) (name : pyval)
| MsgApiError (barcode : string) (e : exn)
| MsgNoBarcodes
| MsgSkipPDF417 (barcode_data : string)
| MsgCacheHit (barcode_data : string) (name : pyval)
| MsgNotInOFF (barcode_data : string)
| MsgScanFailed (e : exn).

(** The trace.  [Log] and [StWarning] are the program's own outputs;
    [HttpGet], [CacheGet] and [Persist] record the calls a counting stub
    would count: [requests.get] for a barcode, [db["barcodes"].get] for a
    key, and [save_nutrition_db] with the store it is given. *)
Inductive event :=
| Log (lv : level) (msg : log_msg)
| StWarning (text : string)
| HttpGet (barcode : string)
| CacheGet (key : string)
| Persist (db : pyval).

(** [disk_writable]: a write of the file goes through.  When it does
    not, [open_refused] tells where it fails: at [open(path, "w")] itself
    (no permission, a read-only file system), which leaves the file as it
    was, or after [open] has created or emptied the file (a full disk),
    which leaves a file that is empty or cut short.
    [net n barcode] is the reply to the request for [barcode] when [n]
    requests were made before it. *)
Record world := World {
  db_file : file_state;
  disk_writable : bool;
  open_refused : bool;
  net : nat -> string -> http_reply;
  events : list event
}.

Definition emit (w : world) (evs : list event) : world :=
  World (db_file w) (disk_writable w) (open_refused w) (net w)
        (events w ++ evs).

Definition set_db_file (w : world) (f : file_state) : world :=
  World f (disk_writable w) (open_refused w) (net w) (events w).

Definition http_calls_of (evs : list event) : list string :=
  omap (fun ev => match ev with HttpGet b => Some b | _ => None end) evs.

Definition cache_gets_of (evs : list event) : list string :=
  omap (fun ev => match ev with CacheGet k => Some k | _ => None end) evs.

Definition persists_of (evs : list event) : list pyval :=
  omap (fun ev => match ev with Persist db => Some db | _ => None end) evs.

Definition http_calls (w : world) : list string := http_calls_of (events w).
Definition cache_gets (w : world) : list string := cache_gets_of (events w).
Definition persists (w : world) : list pyval := persists_of (events w).

(** ** Computations: state passing with exceptions *)
Definition M (A : Type) : Type := world -> outcome A * world.

Definition ret {A} (a : A) : M A := fun w => (Returned a, w).

Definition raise {A} (e : exn) : M A := fun w => (Raised e, w).

Definition bind {A B} (c : M A) (k : A -> M B) : M B :=
  fun w =>
    match c w with
    | (Returned a, w') => k a w'
    | (Raised e, w') => (Raised e, w')
    end.

(** An exception-only step run inside a stateful computation. *)
Definition lift {A} (c : outcome A) : M A := fun w => (c, w).

(** [try: body except Exception as e: handler(e)] *)
Definition try_except {A} (body : M A) (handler : exn -> M A) : M A :=
  fun w =>
    match body w with
    | (Returned a, w') => (Returned a, w')
    | (Raised e, w') => handler e w'
    end.

Definition tell (evs : list event) : M unit := fun w => (Returned tt, emit w evs).

Definition logging (lv : level) (msg : log_msg) : M unit := tell [Log lv msg].

Definition st_warning (text : string) : M unit := tell [StWarning text].

Declare Scope py_scope.
Delimit Scope py_scope with py.
Notation "x <- c ;; k" := (bind c (fun x => k))
  (at level 100, c at next level, right associativity) : py_scope.
Notation "c ;; k" := (bind c (fun _ => k))
  (at level 100, right associativity) : py_scope.
Notation "x <-? c ;; k" := (obind c (fun x => k))
  (at level 100, c at next level, right associativity) : py_scope.
Local Open Scope py_scope.

(** ** The file [nutrition_db.json] *)

(** [os.path.exists(db_path)] *)
Definition path_exists : M bool :=
  fun w => (Returned (match db_file w with FMissing => false | _ => true end), w).

(** [with open(db_path, "w") as f: json.dump(v, f)], for a value the
    [json] module can write.  A write that fails at [open] leaves the file
    alone; one that fails later has already emptied it. *)
Definition write_json (v : pyval) : M unit :=
  fun w =>
    if disk_writable w then (Returned tt, set_db_file w (FJson v))
    else if open_refused w then (Raised OSError, w)
    else (Raised OSError, set_db_file w (FGarbage JSONDecodeError)).

(** [open(db_path, "r")] *)
Definition open_read : M file_state :=
  fun w =>
    match db_file w with
    | FMissing | FUnreadable => (Raised OSError, w)
    | f => (Returned f, w)
    end.

(** [json.load(f)] *)
Definition json_load (f : file_state) : M pyval :=
  match f with
  | FJson v => ret v
  | FGarbage e => raise e
  | FMissing | FUnreadable => raise OSError
  end.

(** A dict display [{k1: v1, ...}] with distinct keys. *)
Definition py_dict (items : list (string * pyval)) : pyval :=
  PDict (list_to_map items).

(** [{"barcodes": {}}] *)
Definition empty_db : pyval := py_dict [("barcodes", py_dict [])].

Definition load_nutrition_db : M pyval :=
  there <- path_exists ;;
  (if negb there then
     logging INFO MsgCreating ;;
     write_json empty_db
   else ret tt) ;;
  try_except
    (f <- open_read ;;
     logging INFO MsgLoaded ;;
     json_load f)
    (fun e =>
       logging ERROR (MsgLoadFailed e) ;;
       ret empty_db).

Definition save_nutrition_db (db : pyval) : M unit :=
  tell [Persist db] ;;
  try_except
    (write_json db ;;
     logging INFO MsgSaved)
    (fun e => logging ERROR (MsgSaveFailed e)).

(** ** The Open Food Facts client *)

(** [requests.get(url, timeout=5)] for the URL of [barcode]. *)
Definition requests_get (barcode : string) : M (Z * option pyval) :=
  fun w =>
    let w' := emit w [HttpGet barcode] in
    match net w (length (http_calls w)) barcode with
    | NetFails => (Raised RequestException, w')
    | Reply status_code json => (Returned (status_code, json), w')
    end.

(** [response.json()] *)
Definition response_json (response : Z * option pyval) : M pyval :=
  match snd response with
  | Some v => ret v
  | None => raise JSONDecodeError
  end.

Definition fetch_barcode_data (barcode : string) : M pyval :=
  try_except
    (response <- requests_get barcode ;;
     if negb (fst response =? 200) then
       logging WARNING (MsgApiStatus barcode (fst response)) ;;
       ret PNone
     else
       data <- response_json response ;;
       status <- lift (py_get data "status" PNone) ;;
       no_product <-
         (if negb (py_eq_num status (NInt 1)) then ret true
          else product <- lift (py_get data "product" PNone) ;;
               ret (negb (py_truthy product))) ;;
       if (no_product : bool) then
         logging WARNING (MsgNoProduct barcode) ;;
         ret PNone
       else
         product <- lift (py_getitem data "product") ;;
         nutriments <- lift (py_get product "nutriments" (py_dict [])) ;;
         name <- lift (py_get product "product_name" (PStr "Unknown Product")) ;;
         calories <- lift (py_get nutriments "energy-kcal_100g" (PInt 0)) ;;
         fat <- lift (py_get nutriments "fat_100g" (PInt 0)) ;;
         carbs <- lift (py_get nutriments "carbohydrates_100g" (PInt 0)) ;;
         protein <- lift (py_get nutriments "proteins_100g" (PInt 0)) ;;
         sugar <- lift (py_get nutriments "sugars_100g" (PInt 0)) ;;
         fiber <- lift (py_get nutriments "fiber_100g" (PInt 0)) ;;
         let result := py_dict [("name", name); ("calories", calories);
                                ("fat", fat); ("carbs", carbs);
                                ("protein", protein); ("sugar", sugar);
                                ("fiber", fiber)] in
         shown <- lift (py_getitem result "name") ;;
         logging INFO (MsgFetched barcode shown) ;;
         ret result)
    (fun e =>
       logging ERROR (MsgApiError barcode e) ;;
       ret PNone).

(** ** Scanning *)

(** A symbol as [pyzbar.decode] reports it: the payload bytes and the
    symbology. *)
Record Decoded := { data : list byte; type : string }.

(** An image enters through what the preprocessing (resize to a width of
    800, grayscale) and [pyzbar.decode] make of it: an exception, or the
    symbols found. *)
Inductive image :=
| Undecodable (e : exn)
| Symbols (barcodes : list Decoded).

Definition preprocess_and_decode (img : image) : M (list Decoded) :=
  match img with
  | Undecodable e => raise e
  | Symbols barcodes => ret barcodes
  end.

(** The [for barcode in barcodes:] loop, with the [return None] that
    follows it.  [db] is the store as loaded. *)
Fixpoint scan_loop (db : pyval) (barcodes : list Decoded) : M pyval :=
  match barcodes with
  | [] => ret PNone
  | barcode :: rest =>
      barcode_data <- lift (decode_utf8 (data barcode)) ;;
      if String.eqb (type barcode) "PDF417" then
        logging WARNING (MsgSkipPDF417 barcode_data) ;;
        st_warning ("PDF417 barcode " ++ barcode_data
                    ++ " not supported. Use UPC/EAN format.")%string ;;
        scan_loop db rest
      else
        cache <- lift (py_getitem db "barcodes") ;;
        nutritional_info <- lift (py_get cache barcode_data PNone) ;;
        tell [CacheGet barcode_data] ;;
        if py_truthy nutritional_info then
          name <- lift (py_getitem nutritional_info "name") ;;
          logging INFO (MsgCacheHit barcode_data name) ;;
          ret nutritional_info
        else
          nutritional_info <- fetch_barcode_data barcode_data ;;
          if py_truthy nutritional_info then
            cache <- lift (py_getitem db "barcodes") ;;
            cache' <- lift (py_setitem cache barcode_data nutritional_info) ;;
            db' <- lift (py_setitem db "barcodes" cache') ;;
            save_nutrition_db db' ;;
            ret nutritional_info
          else
            logging WARNING (MsgNotInOFF barcode_data) ;;
            st_warning ("Barcode " ++ barcode_data
                        ++ " not found in database or Open Food Facts.")%string ;;
            scan_loop db rest
  end.

Definition scan_barcode (img : image) : M pyval :=
  db <- load_nutrition_db ;;
  if negb (py_truthy db) then ret PNone
  else
    try_except
      (barcodes <- preprocess_and_decode img ;;
       match barcodes with
       | [] =>
           logging INFO MsgNoBarcodes ;;
           ret PNone
       | _ => scan_loop db barcodes
       end)
      (fun e =>
         logging ERROR (MsgScanFailed e) ;;
         ret PNone).

(** ** The preference evaluator

    The six thresholds are numbers: [main] passes the values of six integer
    sliders. *)
Section Evaluator.
Variable builtin_str : pyval -> string.

Definition op_str (op : cmp_op) : string :=
  match op with OpGt => ">" | OpLt => "<" end.

(** [f"Label ({shown} OP {limit})"]: the two values are printed in
    turn. *)
Definition mismatch_text (label : string) (shown : pyval) (op : cmp_op)
    (limit : pynum) : outcome string :=
  shown_text <-? py_str builtin_str shown ;;
  limit_text <-? py_str builtin_str (PNum limit) ;;
  Returned (label ++ " (" ++ shown_text ++ " " ++ op_str op ++ " "
            ++ limit_text ++ ")")%string.

(** One line of [check_nutrition]:
    [if data.get(key, 0) OP limit: mismatches.append(f"Label ({data[key]} OP {limit})")] *)
Definition check_field (data : pyval) (key label : string) (op : cmp_op)
    (limit : pynum) (mismatches : list string) : outcome (list string) :=
  v <-? py_get data key (PInt 0) ;;
  fails <-? py_cmp op v limit ;;
  if (fails : bool) then
    shown <-? py_getitem data key ;;
    message <-? mismatch_text label shown op limit ;;
    Returned (mismatches ++ [message])%list
  else Returned mismatches.

Definition check_nutrition (data : pyval)
    (max_calories min_protein max_fat max_carbs max_sugar min_fiber : pynum)
    : outcome (bool * list string) :=
  if negb (py_truthy data) then Returned (false, [])
  else
    let mismatches := [] in
    mismatches <-? check_field data "calories" "Calories" OpGt max_calories mismatches ;;
    mismatches <-? check_field data "protein" "Protein" OpLt min_protein mismatches ;;
    mismatches <-? check_field data "fat" "Fat" OpGt max_fat mismatches ;;
    mismatches <-? check_field data "carbs" "Carbs" OpGt max_carbs mismatches ;;
    mismatches <-? check_field data "sugar" "Sugar" OpGt max_sugar mismatches ;;
    mismatches <-? check_field data "fiber" "Fiber" OpLt min_fiber mismatches ;;
    Returned ((length mismatches =? 0)%nat, mismatches).
End Evaluator.

(** ** Vocabulary of the statements *)

Definition nutrient_keys : list string :=
  ["calories"; "protein"; "fat"; "carbs"; "sugar"; "fiber"].

(** A record that holds a number under each of the six nutrient keys. *)
Definition full_record (record : gmap string pyval) : Prop :=
  forall key,
    In key nutrient_keys ->
    exists v n, record !! key = Some v /\ as_num v = Some n.

(** A record whose nutrient fields, where it has them, hold numbers. *)
Definition numeric_fields (record : gmap string pyval) : Prop :=
  forall key v,
    In key nutrient_keys -> record !! key = Some v ->
    exists n, as_num v = Some n.

(** The reply the server gives to the next request. *)
Definition next_reply (w : world) (barcode : string) : http_reply :=
  net w (length (http_calls w)) barcode.

(** The reply carries a product: status code 200, a JSON object [d] whose
    [status] is 1 and whose [product] is a non-empty object [p], the
    [nutriments] of which, if any, are an object [n]. *)
Definition product_found (reply : http_reply) (d p n : gmap string pyval) : Prop :=
  reply = Reply 200 (Some (PDict d))
  /\ py_eq_num (default PNone (d !! "status")) (NInt 1) = true
  /\ d !! "product" = Some (PDict p)
  /\ py_truthy (PDict p) = true
  /\ default (py_dict []) (p !! "nutriments") = PDict n.

(** Each field of a record with the Open Food Facts field it is read
    from. *)
Definition nutrient_sources : list (string * string) :=
  [("calories", "energy-kcal_100g"); ("fat", "fat_100g");
   ("carbs", "carbohydrates_100g"); ("protein", "proteins_100g");
   ("sugar", "sugars_100g"); ("fiber", "fiber_100g")].

(** The record made of a product [p] with nutriments [n]: what is missing
    is 0, or ["Unknown Product"] for the name. *)
Definition record_of (p n : gmap string pyval) : pyval :=
  py_dict [("name", default (PStr "Unknown Product") (p !! "product_name"));
           ("calories", default (PInt 0) (n !! "energy-kcal_100g"));
           ("fat", default (PInt 0) (n !! "fat_100g"));
           ("carbs", default (PInt 0) (n !! "carbohydrates_100g"));
           ("protein", default (PInt 0) (n !! "proteins_100g"));
           ("sugar", default (PInt 0) (n !! "sugars_100g"));
           ("fiber", default (PInt 0) (n !! "fiber_100g"))].


(** The store after [barcode_data] was resolved to [info]:
    [db["barcodes"][barcode_data] = info]. *)
Definition with_record (db cache : gmap string pyval) (barcode_data : string)
    (info : pyval) : pyval :=
  PDict (<["barcodes" := PDict (<[barcode_data := info]> cache)]> db).


(** What a failed remote lookup leaves behind: one request, the file as
    it was, and no save. *)
Definition fetched_nothing (w w' : world) (barcode_data : string) : Prop :=
  http_calls w' = http_calls w ++ [barcode_data]
  /\ persists w' = persists w
  /\ db_file w' = db_file w.

(** A decode failure reaches the caller of [scan_barcode] as something
    else than an image without symbols does. *)
Definition decode_failure_distinguished (e : exn) (w : world) : Prop :=
  fst (scan_barcode (Undecodable e) w) <> fst (scan_barcode (Symbols []) w).

(** * Worked inputs *)

Module Sample.

(** The record of scenarios A and B. *)
Definition oats_fields : gmap string pyval :=
  list_to_map [("name", PStr "Oats"); ("calories", PInt 120);
               ("protein", PInt 3); ("fat", PInt 2); ("carbs", PInt 20);
               ("sugar", PInt 5); ("fiber", PInt 2)].

Definition oats : pyval := PDict oats_fields.

Definition cache : gmap string pyval := {[ "5000159407236" := oats ]}.

(** [{"barcodes": {"5000159407236": {...}}}] *)
Definition store : gmap string pyval := {[ "barcodes" := PDict cache ]}.

Definition symbol (payload symbology : string) : Decoded :=
  {| data := list_byte_of_string payload; type := symbology |}.

(** A server that knows one product, with no fiber figure and no name. *)
Definition nutriments : gmap string pyval :=
  list_to_map [("energy-kcal_100g", PInt 357); ("carbohydrates_100g", PInt 86)].

Definition product : gmap string pyval := {[ "nutriments" := PDict nutriments ]}.

Definition body : gmap string pyval :=
  list_to_map [("status", PInt 1); ("product", PDict product)].

Definition server (n : nat) (barcode : string) : http_reply :=
  if String.eqb barcode "0000000000000" then Reply 200 (Some (py_dict [("status", PInt 0)]))
  else if String.eqb barcode "4000000000000" then Reply 404 None
  else Reply 200 (Some (PDict body)).

Definition cornflakes : pyval :=
  py_dict [("name", PStr "Unknown Product"); ("calories", PInt 357);
           ("fat", PInt 0); ("carbs", PInt 86); ("protein", PInt 0);
           ("sugar", PInt 0); ("fiber", PInt 0)].

(** The store on file, a disk that takes writes, nothing done yet. *)
Definition world0 : world :=
  {| db_file := FJson (PDict store); disk_writable := true;
     open_refused := false; net := server; events := [] |}.

Definition plain_str (v : pyval) : string := "?".

(** A record with a name and nothing else. *)
Definition water : gmap string pyval := {[ "name" := PStr "Water" ]}.

End Sample.

(** * Beyond the pipeline's contract: vocabulary *)

(** The payload under which the loop looks a symbol up: none for a PDF417
    symbol, none for bytes that are not UTF-8. *)
Definition candidate (barcode : Decoded) : option string :=
  if String.eqb (type barcode) "PDF417" then None
  else match decode_utf8 (data barcode) with
       | Returned barcode_data => Some barcode_data
       | Raised _ => None
       end.

Definition candidates (barcodes : list Decoded) : list string :=
  omap candidate barcodes.

Definition symbols_of (img : image) : list Decoded :=
  match img with
  | Undecodable _ => []
  | Symbols barcodes => barcodes
  end.

(** The six lines of [check_nutrition], in order: key, label, comparison
    that makes a mismatch, threshold. *)
Definition threshold_lines
    (max_calories min_protein max_fat max_carbs max_sugar min_fiber : pynum)
    : list (string * string * cmp_op * pynum) :=
  [("calories", "Calories", OpGt, max_calories);
   ("protein", "Protein", OpLt, min_protein);
   ("fat", "Fat", OpGt, max_fat);
   ("carbs", "Carbs", OpGt, max_carbs);
   ("sugar", "Sugar", OpGt, max_sugar);
   ("fiber", "Fiber", OpLt, min_fiber)].

(** The field of a line is a number on the wrong side of the threshold. *)
Definition line_fails (record : gmap string pyval)
    (line : string * string * cmp_op * pynum) : bool :=
  let '(key, _, op, limit) := line in
  match record !! key with
  | Some v =>
      match as_num v with
      | Some a => cmp_holds op (num_compare a limit)
      | None => false
      end
  | None => false
  end.

(** The message of a line, for a record that has the field, when both
    values print. *)
Definition line_message (builtin_str : pyval -> string)
    (record : gmap string pyval)
    (line : string * string * cmp_op * pynum) : string :=
  let '(key, label, op, limit) := line in
  (label ++ " (" ++ render builtin_str (default PNone (record !! key))
   ++ " " ++ op_str op ++ " " ++ render builtin_str (PNum limit)
   ++ ")")%string.

(** The message of a line cannot be made: the field or the threshold is an
    [int] that [str] refuses. *)
Definition line_unprintable (record : gmap string pyval)
    (line : string * string * cmp_op * pynum) : bool :=
  let '(key, _, _, limit) := line in
  has_long_int (default PNone (record !! key)) || has_long_int (PNum limit).

(** No nutrient field of the record holds an [int] that [str] refuses. *)
Definition short_fields (record : gmap string pyval) : Prop :=
  forall key v,
    In key nutrient_keys -> record !! key = Some v -> has_long_int v = false.

(** None of the six thresholds is an [int] that [str] refuses. *)
Definition short_thresholds
    (max_calories min_protein max_fat max_carbs max_sugar min_fiber : pynum)
    : Prop :=
  forall limit,
    In limit [max_calories; min_protein; max_fat; max_carbs; max_sugar;
              min_fiber] ->
    has_long_int (PNum limit) = false.


(** The record contains the six nutrient keys, whatever they hold. *)
Definition all_six_keys (record : gmap string pyval) : Prop :=
  forall key, In key nutrient_keys -> exists v, record !! key = Some v.

(** [check_nutrition] returns without error. *)
Definition returns_without_error (builtin_str : pyval -> string)
    (data : pyval)
    (max_calories min_protein max_fat max_carbs max_sugar min_fiber : pynum)
    : Prop :=
  exists passed mismatches,
    check_nutrition builtin_str data max_calories min_protein max_fat
                    max_carbs max_sugar min_fiber
    = Returned (passed, mismatches).

(** After the symbol [barcode], the loop goes on with the symbols that
    follow it. *)
Definition scanning_continues (db : pyval) (barcode : Decoded)
    (rest : list Decoded) (w : world) : Prop :=
  exists w', scan_loop db (barcode :: rest) w = scan_loop db rest w'.

(** [a <= b] for two numbers; false when either is a NaN. *)
Definition num_le (a b : pynum) : bool :=
  match num_compare a b with
  | Some Lt | Some Eq => true
  | _ => false
  end.

(** A line of [check_nutrition] finds nothing to report: the field, or 0
    when the record lacks it, is a number on the right side of the
    threshold. *)
Definition line_passes (data : pyval) (key : string) (op : cmp_op)
    (limit : pynum) : Prop :=
  exists v a,
    py_get data key (PInt 0) = Returned v
    /\ as_num v = Some a
    /\ cmp_holds op (num_compare a limit) = false.

(** * The upload block of [main]

    The part of [main] that runs once a file was uploaded: preview, image
    decoding, [scan_barcode], the result table, [check_nutrition] and the
    export button, all inside one [try]. *)

(** The log records [main] writes itself. *)
Inductive main_msg :=
| MsgUnreadableUpload
| MsgProcessingFailed (e : exn).

(** What the block puts out, in order: the Streamlit elements it shows,
    the CSV file it writes and its own log records.  What the functions it
    calls put out stays in the trace of the world. *)
Inductive output :=
| StImage
| StError (text : string)
| StSuccess (text : string)
| StTable (row : pyval)
| StWrite (args : list string)
| StWarn (text : string)
| StButton (label : string)
| CsvWritten (row : pyval)
| MainLog (lv : level) (msg : main_msg).

(** The surroundings of one run, for what lies outside the program:
    whether [st.image] raises on the upload; what reading the upload and
    [cv2.imdecode] give (an exception, [None], or an image); whether
    building and showing the table of a record raises; whether the export
    button was pressed; whether [df.to_csv] raises. *)
Record upload := Upload {
  st_image : option exn;
  imdecode : outcome (option image);
  st_table : pyval -> option exn;
  export_clicked : bool;
  to_csv : option exn
}.

Record session := Session { env : world; outputs : list output }.

Definition Script (A : Type) : Type := session -> outcome A * session.

Definition sret {A} (a : A) : Script A := fun s => (Returned a, s).

Definition sbind {A B} (c : Script A) (k : A -> Script B) : Script B :=
  fun s =>
    match c s with
    | (Returned a, s') => k a s'
    | (Raised e, s') => (Raised e, s')
    end.

(** A call of one of the functions above. *)
Definition call {A} (c : M A) : Script A :=
  fun s => let '(r, w') := c (env s) in (r, Session w' (outputs s)).

Definition value {A} (c : outcome A) : Script A := fun s => (c, s).

Definition may_raise (failure : option exn) : Script unit :=
  fun s => (match failure with Some e => Raised e | None => Returned tt end, s).

Definition put (outs : list output) : Script unit :=
  fun s => (Returned tt, Session (env s) (outputs s ++ outs)).

Definition stry {A} (body : Script A) (handler : exn -> Script A) : Script A :=
  fun s =>
    match body s with
    | (Returned a, s') => (Returned a, s')
    | (Raised e, s') => handler e s'
    end.

Declare Scope script_scope.
Delimit Scope script_scope with script.
Notation "x <- c ;; k" := (sbind c (fun x => k))
  (at level 100, c at next level, right associativity) : script_scope.
Notation "c ;; k" := (sbind c (fun _ => k))
  (at level 100, right associativity) : script_scope.

Definition meets_text : string := "✅ Meets your preferences!".
Definition fails_text : string := "❌ Does not meet preferences!".

Section Main.
Variable builtin_str : pyval -> string.

(** The values of the six sliders, which are integers. *)
Variables max_calories min_protein max_fat max_carbs max_sugar min_fiber : Z.

(** [if meets_criteria: ... else: ...] *)
Definition show_verdict (meets_criteria : bool) (mismatches : list string)
    : Script unit :=
  (if meets_criteria then put [StWrite [meets_text]]
   else
     put [StWrite [fails_text]] ;;
     match mismatches with
     | _ :: _ => put [StWrite ["Details:"; String.concat ", " mismatches]]
     | [] => put [StWarn "No specific mismatch details available. Check image or sliders."]
     end)%script.

(** [if uploaded_file: try: ... except Exception as e: ...].  The name on
    the [Found] line is a value of the store or of a reply, which
    prints. *)
Definition upload_block (up : upload) : Script unit :=
  stry
    (may_raise (st_image up) ;;
     put [StImage] ;;
     image <- value (imdecode up) ;;
     match image with
     | None =>
         put [StError "Failed to read image. Try another file.";
              MainLog ERROR MsgUnreadableUpload]
     | Some image =>
         result <- call (scan_barcode image) ;;
         if py_truthy result then
           name <- value (py_get result "name" PNone) ;;
           put [StSuccess ("Found: " ++ render builtin_str name)%string] ;;
           may_raise (st_table up result) ;;
           put [StTable result] ;;
           verdict <- value (check_nutrition builtin_str result
                               (NInt max_calories) (NInt min_protein)
                               (NInt max_fat) (NInt max_carbs)
                               (NInt max_sugar) (NInt min_fiber)) ;;
           show_verdict (fst verdict) (snd verdict) ;;
           put [StButton "Export Results"] ;;
           if export_clicked up then
             may_raise (to_csv up) ;;
             put [CsvWritten result;
                  StSuccess "Exported to scan_results.csv!"]
           else sret tt
         else
           put [StError "Barcode not recognized. Check nutriscan.log for details."]
     end)%script
    (fun e =>
       put [StError "Processing failed. Check nutriscan.log.";
            MainLog ERROR (MsgProcessingFailed e)]).

(** What one run of the block puts out in a world. *)
Definition shown (up : upload) (w : world) : list output :=
  outputs (snd (upload_block up (Session w []))).
End Main.

(** * More worked inputs *)

Module Cases.

(** The store file is there and is not JSON; or is not text at all. *)
Definition garbage_world : world :=
  set_db_file Sample.world0 (FGarbage JSONDecodeError).

Definition binary_world : world :=
  set_db_file Sample.world0 (FGarbage UnicodeDecodeError).

(** No store file yet: on a disk that takes writes, in a directory that
    cannot be written, and on a full disk. *)
Definition first_run : world := set_db_file Sample.world0 FMissing.

Definition read_only_first_run : world :=
  {| db_file := FMissing; disk_writable := false; open_refused := true;
     net := Sample.server; events := [] |}.

Definition full_disk_first_run : world :=
  {| db_file := FMissing; disk_writable := false; open_refused := false;
     net := Sample.server; events := [] |}.

(** The store of the scenarios, on a full disk and on a file system that
    is read-only. *)
Definition full_disk : world :=
  {| db_file := FJson (PDict Sample.store); disk_writable := false;
     open_refused := false; net := Sample.server; events := [] |}.


(** The store file holds the JSON number 5, or the empty object. *)
Definition number_world : world := set_db_file Sample.world0 (FJson (PInt 5)).

Definition empty_object_world : world :=
  set_db_file Sample.world0 (FJson (py_dict [])).

(** A symbol whose payload is the byte FF, which is not UTF-8. *)
Definition broken_symbol : Decoded := {| data := [Byte.xff]; type := "EAN13" |}.

(** The same payload in a PDF417 symbol. *)
Definition binary_pdf417 : Decoded := {| data := [Byte.xff]; type := "PDF417" |}.

(** The six keys, with the protein as the text ["3"]. *)
Definition text_protein : gmap string pyval :=
  <["protein" := PStr "3"]> Sample.oats_fields.

(** The six keys, with an [int] of 4301 digits for the calories. *)
Definition huge_calories : gmap string pyval :=
  <["calories" := PInt max_str_int]> Sample.oats_fields.

(** A store whose entry for the payload 7 is the number 5. *)
Definition nameless_cache : gmap string pyval := {[ "7" := PInt 5 ]}.

Definition nameless_store : gmap string pyval :=
  {[ "barcodes" := PDict nameless_cache ]}.

Definition nameless_world : world :=
  set_db_file Sample.world0 (FJson (PDict nameless_store)).

(** An upload that is previewed and decoded to [img], with a table that
    shows and no export. *)
Definition photo (img : image) : upload :=
  {| st_image := None; imdecode := Returned (Some img);
     st_table := fun _ => None; export_clicked := false; to_csv := None |}.

Definition oats_photo : upload :=
  photo (Symbols [Sample.symbol "5000159407236" "EAN13"]).

End Cases.

(** * Properties *)

(** Unfolds the plumbing of [M] so that a computation applied to a world
    reduces as far as its data allows. *)
Ltac run :=
  unfold bind, lift, ret, raise, try_except, logging, st_warning, tell; simpl.

Arguments fetch_barcode_data : simpl never.
Arguments save_nutrition_db : simpl never.
Arguments load_nutrition_db : simpl never.

(** The limit of [str] on an [int], written out in [max_str_int]. *)
Lemma max_str_int_is_10_pow_4300 : max_str_int = 10 ^ 4300.
Proof. vm_compute. reflexivity. Qed.

(** A dict with a key in it is true. *)
Lemma py_truthy_dict (d : gmap string pyval) key v :
  d !! key = Some v -> py_truthy (PDict d) = true.
Proof.
  intros Hk. simpl. apply negb_true_iff, bool_decide_eq_false.
  intros Hsize. apply map_size_empty_iff in Hsize. subst d.
  rewrite lookup_empty in Hk. discriminate.
Qed.

(** ** The preference evaluator *)
Section EvaluatorFacts.
Variable builtin_str : pyval -> string.

(** [str] fails exactly on a value that holds an [int] it refuses. *)
Lemma py_str_cases v :
  py_str builtin_str v =
    if has_long_int v then Raised ValueError
    else Returned (render builtin_str v).
Proof. destruct v as [| |[z|f]| | |]; reflexivity. Qed.

(** The message of a line is made unless one of its two values is an [int]
    that [str] refuses. *)
Lemma mismatch_text_cases label v op limit :
  mismatch_text builtin_str label v op limit =
    if has_long_int v || has_long_int (PNum limit) then Raised ValueError
    else Returned (label ++ " (" ++ render builtin_str v ++ " " ++ op_str op
                   ++ " " ++ render builtin_str (PNum limit) ++ ")")%string.
Proof.
  unfold mismatch_text. rewrite !py_str_cases.
  destruct (has_long_int v); [reflexivity|]. cbn [obind orb].
  destruct (has_long_int (PNum limit)); reflexivity.
Qed.

(** A field that is present and holds a number: the line does not drop
    what was collected before, and raises only if it cannot print its
    message. *)
Lemma check_field_present (d : gmap string pyval) key label op limit ms v a :
  d !! key = Some v -> as_num v = Some a ->
  check_field builtin_str (PDict d) key label op limit ms =
    if cmp_holds op (num_compare a limit)
    then message <-? mismatch_text builtin_str label v op limit ;;
         Returned (ms ++ [message])%list
    else Returned ms.
Proof.
  intros Hk Ha. unfold check_field, py_get, py_cmp, py_getitem.
  rewrite Hk. simpl. rewrite Ha. simpl.
  destruct (cmp_holds op (num_compare a limit)); reflexivity.
Qed.

(** At equality neither [>] nor [<] holds. *)
Lemma py_eq_num_not_cmp v limit op :
  py_eq_num v limit = true ->
  exists a, as_num v = Some a /\ cmp_holds op (num_compare a limit) = false.
Proof.
  unfold py_eq_num. destruct (as_num v) as [a|]; [|discriminate].
  intros Heq. exists a. split; [reflexivity|].
  destruct (num_compare a limit) as [[]|]; try discriminate.
  destruct op; reflexivity.
Qed.

Lemma check_field_at_limit (d : gmap string pyval) key label op limit ms v :
  d !! key = Some v -> py_eq_num v limit = true ->
  check_field builtin_str (PDict d) key label op limit ms = Returned ms.
Proof.
  intros Hk Heq.
  destruct (py_eq_num_not_cmp v limit op Heq) as (a & Ha & Hc).
  rewrite (check_field_present d key label op limit ms v a Hk Ha), Hc.
  reflexivity.
Qed.

(** A missing field is compared as 0, and read without a default only
    when that comparison fails. *)
Lemma check_field_missing (d : gmap string pyval) key label op limit ms :
  d !! key = None ->
  check_field builtin_str (PDict d) key label op limit ms =
    if cmp_holds op (num_compare (NInt 0) limit)
    then Raised (KeyError key) else Returned ms.
Proof.
  intros Hk. unfold check_field, py_get, py_cmp, py_getitem.
  rewrite Hk. simpl.
  destruct (cmp_holds op (num_compare (NInt 0) limit)); reflexivity.
Qed.

(** A field that is present, holds a number and can be printed beside a
    threshold that can be printed: the line returns. *)
Lemma check_field_printable (d : gmap string pyval) key label op limit ms v a :
  d !! key = Some v -> as_num v = Some a ->
  has_long_int v = false -> has_long_int (PNum limit) = false ->
  exists ms',
    check_field builtin_str (PDict d) key label op limit ms = Returned ms'.
Proof.
  intros Hk Ha Hv Hlimit.
  rewrite (check_field_present d key label op limit ms v a Hk Ha).
  rewrite mismatch_text_cases, Hv, Hlimit. cbn [orb obind].
  destruct (cmp_holds op (num_compare a limit)); eauto.
Qed.

Lemma full_record_field record key :
  full_record record -> short_fields record ->
  In key nutrient_keys ->
  forall label op limit ms,
    has_long_int (PNum limit) = false ->
    exists ms',
      check_field builtin_str (PDict record) key label op limit ms
      = Returned ms'.
Proof.
  intros Hfull Hshort Hkey label op limit ms Hlimit.
  destruct (Hfull key Hkey) as (v & n & Hv & Hn).
  exact (check_field_printable record key label op limit ms v n Hv Hn
           (Hshort key v Hkey Hv) Hlimit).
Qed.

Lemma check_nutrition_returns_on_full_record record
    max_calories min_protein max_fat max_carbs max_sugar min_fiber :
  full_record record -> short_fields record ->
  short_thresholds max_calories min_protein max_fat max_carbs max_sugar
                   min_fiber ->
  exists passed mismatches,
    check_nutrition builtin_str (PDict record) max_calories min_protein
                    max_fat max_carbs max_sugar min_fiber
    = Returned (passed, mismatches).
Proof.
  intros Hfull Hshort Hlimits. unfold check_nutrition.
  destruct (Hfull "calories") as (v & n & Hv & _); [simpl; tauto|].
  rewrite (py_truthy_dict record _ _ Hv). cbn [negb]. cbv zeta.
  destruct (full_record_field record "calories" Hfull Hshort
              ltac:(simpl; tauto) "Calories" OpGt max_calories [])
    as [ms1 ->]; [apply Hlimits; simpl; tauto|]. cbn [obind].
  destruct (full_record_field record "protein" Hfull Hshort
              ltac:(simpl; tauto) "Protein" OpLt min_protein ms1)
    as [ms2 ->]; [apply Hlimits; simpl; tauto|]. cbn [obind].
  destruct (full_record_field record "fat" Hfull Hshort
              ltac:(simpl; tauto) "Fat" OpGt max_fat ms2)
    as [ms3 ->]; [apply Hlimits; simpl; tauto|]. cbn [obind].
  destruct (full_record_field record "carbs" Hfull Hshort
              ltac:(simpl; tauto) "Carbs" OpGt max_carbs ms3)
    as [ms4 ->]; [apply Hlimits; simpl; tauto|]. cbn [obind].
  destruct (full_record_field record "sugar" Hfull Hshort
              ltac:(simpl; tauto) "Sugar" OpGt max_sugar ms4)
    as [ms5 ->]; [apply Hlimits; simpl; tauto|]. cbn [obind].
  destruct (full_record_field record "fiber" Hfull Hshort
              ltac:(simpl; tauto) "Fiber" OpLt min_fiber ms5)
    as [ms6 ->]; [apply Hlimits; simpl; tauto|]. cbn [obind].
  eauto.
Qed.

Lemma check_nutrition_passed data t1 t2 t3 t4 t5 t6 passed mismatches :
  py_truthy data = true ->
  check_nutrition builtin_str data t1 t2 t3 t4 t5 t6 = Returned (passed, mismatches) ->
  (passed = true <-> mismatches = []).
Proof.
  intros Htruthy. unfold check_nutrition. rewrite Htruthy. cbn [negb]. cbv zeta.
  repeat match goal with
         | |- context [obind ?c _] =>
             destruct c as [?|?]; cbn [obind]; [|discriminate]
         end.
  intros [= <- <-].
  rewrite Nat.eqb_eq. apply length_zero_iff_nil.
Qed.

(** C3. For every record that is evaluated (it passes the [if not data]
    guard) and every six thresholds, whenever [check_nutrition] returns
    [(passed, mismatches)], [passed] is true if and only if [mismatches]
    is empty; and it does return such a pair on a record that holds a
    number under each of the six nutrient keys, when no [int] among these
    numbers and the thresholds is beyond what [str] prints. *)
Theorem passed_iff_no_mismatch :
  forall max_calories min_protein max_fat max_carbs max_sugar min_fiber,
    (forall data passed mismatches,
       py_truthy data = true ->
       check_nutrition builtin_str data max_calories min_protein max_fat
                       max_carbs max_sugar min_fiber
       = Returned (passed, mismatches) ->
       (passed = true <-> mismatches = []))
    /\
    (forall record,
       full_record record ->
       short_fields record ->
       short_thresholds max_calories min_protein max_fat max_carbs
                        max_sugar min_fiber ->
       exists passed mismatches,
         check_nutrition builtin_str (PDict record) max_calories min_protein
                         max_fat max_carbs max_sugar min_fiber
         = Returned (passed, mismatches)
         /\ (passed = true <-> mismatches = [])).
Proof.
  intros t1 t2 t3 t4 t5 t6. split.
  - intros data passed ms. apply check_nutrition_passed.
  - intros record Hfull Hshort Hlimits.
    destruct (check_nutrition_returns_on_full_record record t1 t2 t3 t4 t5 t6
                Hfull Hshort Hlimits)
      as (passed & ms & Hret).
    exists passed, ms. split; [exact Hret|].
    apply (check_nutrition_passed (PDict record) t1 t2 t3 t4 t5 t6); [|exact Hret].
    destruct (Hfull "calories") as (v & n & Hv & _); [simpl; tauto|].
    exact (py_truthy_dict record _ _ Hv).
Qed.

(** C7. A record whose six nutrient values each equal ([==]) the
    corresponding threshold is reported with no mismatch at all: the four
    upper bounds (calories, fat, carbs, sugar) and the two lower bounds
    (protein, fiber) pass at equality. *)
Theorem at_threshold_no_mismatch :
  forall (record : gmap string pyval)
         calories protein fat carbs sugar fiber
         max_calories min_protein max_fat max_carbs max_sugar min_fiber,
    record !! "calories" = Some calories ->
    record !! "protein" = Some protein ->
    record !! "fat" = Some fat ->
    record !! "carbs" = Some carbs ->
    record !! "sugar" = Some sugar ->
    record !! "fiber" = Some fiber ->
    py_eq_num calories max_calories = true ->
    py_eq_num protein min_protein = true ->
    py_eq_num fat max_fat = true ->
    py_eq_num carbs max_carbs = true ->
    py_eq_num sugar max_sugar = true ->
    py_eq_num fiber min_fiber = true ->
    check_nutrition builtin_str (PDict record) max_calories min_protein
                    max_fat max_carbs max_sugar min_fiber
    = Returned (true, []).
Proof.
  intros record c p f cb s fb t1 t2 t3 t4 t5 t6
         Hc Hp Hf Hcb Hs Hfb Ec Ep Ef Ecb Es Efb.
  unfold check_nutrition.
  rewrite (py_truthy_dict record _ _ Hc). simpl.
  rewrite (check_field_at_limit record _ _ _ _ _ _ Hc Ec). simpl.
  rewrite (check_field_at_limit record _ _ _ _ _ _ Hp Ep). simpl.
  rewrite (check_field_at_limit record _ _ _ _ _ _ Hf Ef). simpl.
  rewrite (check_field_at_limit record _ _ _ _ _ _ Hcb Ecb). simpl.
  rewrite (check_field_at_limit record _ _ _ _ _ _ Hs Es). simpl.
  rewrite (check_field_at_limit record _ _ _ _ _ _ Hfb Efb). simpl.
  reflexivity.
Qed.

(** C9. An absent record ([None]) yields [passed = False] with an empty
    mismatch list, whatever the thresholds. *)
Theorem absent_record_fails_without_mismatch :
  forall max_calories min_protein max_fat max_carbs max_sugar min_fiber,
    check_nutrition builtin_str PNone max_calories min_protein
                    max_fat max_carbs max_sugar min_fiber
    = Returned (false, []).
Proof. reflexivity. Qed.

(** A field that holds something else than a number cannot be ordered
    against its threshold. *)
Lemma check_field_not_a_number (d : gmap string pyval) key label op limit ms v :
  d !! key = Some v -> as_num v = None ->
  check_field builtin_str (PDict d) key label op limit ms = Raised TypeError.
Proof.
  intros Hk Ha. unfold check_field, py_get, py_cmp.
  rewrite Hk. simpl. rewrite Ha. reflexivity.
Qed.

(** On a dict whose values under the nutrient keys are numbers that
    print, a line either returns or raises [KeyError] for its own,
    missing, key. *)
Lemma check_field_outcome (d : gmap string pyval) key label op limit ms :
  (forall v, d !! key = Some v ->
             (exists n, as_num v = Some n) /\ has_long_int v = false) ->
  has_long_int (PNum limit) = false ->
  (exists ms', check_field builtin_str (PDict d) key label op limit ms = Returned ms')
  \/ (check_field builtin_str (PDict d) key label op limit ms = Raised (KeyError key)
      /\ d !! key = None
      /\ cmp_holds op (num_compare (NInt 0) limit) = true).
Proof.
  intros Hnum Hlimit. destruct (d !! key) as [v|] eqn:Hk.
  - destruct (Hnum v eq_refl) as [[n Hn] Hv]. left.
    exact (check_field_printable d key label op limit ms v n Hk Hn Hv Hlimit).
  - rewrite (check_field_missing d key label op limit ms Hk).
    destruct (cmp_holds op (num_compare (NInt 0) limit)); eauto.
Qed.

(** C10, as amended.  On a record that holds a number under each of the
    six nutrient keys, [check_nutrition] returns a result and raises
    nothing, as long as no [int] among these numbers and the thresholds is
    beyond what [str] prints.  The presence of the keys is what this rests
    on: a comparison takes a missing field as 0, but the message of a
    failed comparison reads the field with no default; so on a record
    whose nutrient values are such numbers the only exception is the
    [KeyError] of a nutrient key that is missing and whose comparison,
    made with 0, fails. *)
Theorem check_nutrition_total_on_full_record :
  forall max_calories min_protein max_fat max_carbs max_sugar min_fiber,
    short_thresholds max_calories min_protein max_fat max_carbs max_sugar
                     min_fiber ->
    (forall record,
       full_record record ->
       short_fields record ->
       returns_without_error builtin_str (PDict record) max_calories
                             min_protein max_fat max_carbs max_sugar
                             min_fiber)
    /\
    (forall (record : gmap string pyval) e,
       numeric_fields record ->
       short_fields record ->
       check_nutrition builtin_str (PDict record) max_calories min_protein
                       max_fat max_carbs max_sugar min_fiber
       = Raised e ->
       exists key op limit,
         In (key, op, limit) [("calories", OpGt, max_calories);
                              ("protein", OpLt, min_protein);
                              ("fat", OpGt, max_fat);
                              ("carbs", OpGt, max_carbs);
                              ("sugar", OpGt, max_sugar);
                              ("fiber", OpLt, min_fiber)]
         /\ e = KeyError key
         /\ record !! key = None
         /\ cmp_holds op (num_compare (NInt 0) limit) = true).
Proof.
  intros t1 t2 t3 t4 t5 t6 Hlimits. split.
  - intros record Hfull Hshort.
    exact (check_nutrition_returns_on_full_record record t1 t2 t3 t4 t5 t6
             Hfull Hshort Hlimits).
  - intros record e Hnum Hshort. unfold check_nutrition.
    destruct (py_truthy (PDict record)); [|discriminate]. cbn [negb].
    cbv zeta.
    repeat match goal with
           | |- context [obind (check_field builtin_str (PDict record) ?k ?l ?o ?t ?ms) _] =>
               destruct (check_field_outcome record k l o t ms
                           (fun v Hv =>
                              conj (Hnum k v ltac:(simpl; tauto) Hv)
                                   (Hshort k v ltac:(simpl; tauto) Hv))
                           (Hlimits t ltac:(simpl; tauto)))
                 as [[? ->]|(-> & Hnone & Hfail)];
               [cbn [obind]
               |cbn [obind]; intros [= <-]; exists k, o, t;
                split; [simpl; tauto|auto]]
           end.
    discriminate.
Qed.
End EvaluatorFacts.

(** ** The trace *)

Lemma emit_emit w evs1 evs2 : emit (emit w evs1) evs2 = emit w (evs1 ++ evs2).
Proof. unfold emit. simpl. rewrite <- app_assoc. reflexivity. Qed.

Lemma http_calls_emit w evs : http_calls (emit w evs) = http_calls w ++ http_calls_of evs.
Proof. unfold http_calls, http_calls_of. simpl. apply omap_app. Qed.

Lemma cache_gets_emit w evs : cache_gets (emit w evs) = cache_gets w ++ cache_gets_of evs.
Proof. unfold cache_gets, cache_gets_of. simpl. apply omap_app. Qed.

Lemma persists_emit w evs : persists (emit w evs) = persists w ++ persists_of evs.
Proof. unfold persists, persists_of. simpl. apply omap_app. Qed.

(** ** The Open Food Facts client *)

Lemma record_of_truthy p n : py_truthy (record_of p n) = true.
Proof. eapply py_truthy_dict. apply lookup_insert_eq. Qed.

(** The client always returns, after one request and one log record; what
    it returns is [None] or the record of the product found. *)
Lemma fetch_barcode_data_shape barcode w :
  exists result lv msg,
    fetch_barcode_data barcode w
    = (Returned result, emit w [HttpGet barcode; Log lv msg])
    /\ (result = PNone
        \/ exists d p n,
             product_found (next_reply w barcode) d p n
             /\ result = record_of p n).
Proof.
  unfold product_found, next_reply, fetch_barcode_data, requests_get,
    response_json. run.
  destruct (net w (length (http_calls w)) barcode) as [|code json]; simpl.
  { rewrite emit_emit. eauto 6. }
  destruct (Z.eqb_spec code 200) as [->|]; simpl; [|rewrite emit_emit; eauto 6].
  destruct json as [body|]; simpl; [|rewrite emit_emit; eauto 6].
  destruct body as [| | | | |d]; simpl; try (rewrite emit_emit; eauto 6).
  destruct (py_eq_num (default PNone (d !! "status")) (NInt 1)) eqn:Hstatus;
    simpl; [|rewrite emit_emit; eauto 6].
  destruct (py_truthy (default PNone (d !! "product"))) eqn:Hproduct; simpl;
    [|rewrite emit_emit; eauto 6].
  destruct (d !! "product") as [product|] eqn:Hd; simpl; [|discriminate].
  destruct product as [| | | | |p]; simpl; try (rewrite emit_emit; eauto 6).
  destruct (default (py_dict []) (p !! "nutriments")) as [| | | | |n] eqn:Hn;
    simpl; try (rewrite emit_emit; eauto 6).
  rewrite lookup_insert_eq. simpl. rewrite emit_emit.
  do 3 eexists. split; [reflexivity|].
  right. exists d, p, n. repeat split; assumption.
Qed.

(** Every call makes exactly one request, for the barcode asked, and
    touches neither the file nor the disk. *)
Lemma fetch_barcode_data_frame barcode w result w' :
  fetch_barcode_data barcode w = (result, w') ->
  http_calls w' = http_calls w ++ [barcode]
  /\ persists w' = persists w
  /\ cache_gets w' = cache_gets w
  /\ db_file w' = db_file w
  /\ disk_writable w' = disk_writable w
  /\ net w' = net w.
Proof.
  destruct (fetch_barcode_data_shape barcode w) as (r & lv & msg & -> & _).
  intros [= <- <-].
  rewrite http_calls_emit, persists_emit, cache_gets_emit. simpl.
  rewrite !app_nil_r. repeat split.
Qed.

Section FetchCases.
Variables (barcode : string) (w : world).

Lemma fetch_net_fails :
  next_reply w barcode = NetFails ->
  fst (fetch_barcode_data barcode w) = Returned PNone.
Proof.
  unfold next_reply, fetch_barcode_data, requests_get. run.
  intros ->. reflexivity.
Qed.

Lemma fetch_bad_status code json :
  next_reply w barcode = Reply code json -> code <> 200 ->
  fst (fetch_barcode_data barcode w) = Returned PNone.
Proof.
  unfold next_reply, fetch_barcode_data, requests_get. run.
  intros -> Hcode. simpl.
  destruct (Z.eqb_spec code 200); [contradiction|]. reflexivity.
Qed.

Lemma fetch_not_json :
  next_reply w barcode = Reply 200 None ->
  fst (fetch_barcode_data barcode w) = Returned PNone.
Proof.
  unfold next_reply, fetch_barcode_data, requests_get. run.
  intros ->. reflexivity.
Qed.

Lemma fetch_not_found (d : gmap string pyval) :
  next_reply w barcode = Reply 200 (Some (PDict d)) ->
  py_eq_num (default PNone (d !! "status")) (NInt 1) = false
  \/ py_truthy (default PNone (d !! "product")) = false ->
  fst (fetch_barcode_data barcode w) = Returned PNone.
Proof.
  unfold next_reply, fetch_barcode_data, requests_get. run.
  intros -> Hcond. simpl.
  destruct (py_eq_num (default PNone (d !! "status")) (NInt 1)); simpl;
    [|reflexivity].
  destruct Hcond as [?| ->]; [discriminate|]. reflexivity.
Qed.

Lemma fetch_found (d p n : gmap string pyval) :
  product_found (next_reply w barcode) d p n ->
  fst (fetch_barcode_data barcode w) = Returned (record_of p n).
Proof.
  unfold product_found, next_reply, fetch_barcode_data, requests_get. run.
  intros (-> & Hstatus & Hproduct & Htruthy & Hnutriments). simpl.
  rewrite Hstatus, Hproduct. simpl. simpl in Htruthy. rewrite Htruthy. simpl.
  rewrite Hnutriments. simpl.
  rewrite lookup_insert_eq. reflexivity.
Qed.
End FetchCases.

(** C6. [fetch_barcode_data] never raises: it returns [None] or the record
    of the product found.  A request that fails, a status code other than
    200, a body that is not JSON, a [status] field other than 1 and
    missing or empty product data all give [None].  On success the record
    holds the product name and the six nutrients, a missing nutrient being
    0 and a missing name ["Unknown Product"]. *)
Theorem fetch_barcode_data_contract :
  forall barcode w,
    (exists result,
       fst (fetch_barcode_data barcode w) = Returned result
       /\ (result = PNone
           \/ exists d p n,
                product_found (next_reply w barcode) d p n
                /\ result = record_of p n))
    /\ (next_reply w barcode = NetFails ->
        fst (fetch_barcode_data barcode w) = Returned PNone)
    /\ (forall code json,
          next_reply w barcode = Reply code json -> code <> 200 ->
          fst (fetch_barcode_data barcode w) = Returned PNone)
    /\ (next_reply w barcode = Reply 200 None ->
        fst (fetch_barcode_data barcode w) = Returned PNone)
    /\ (forall d : gmap string pyval,
          next_reply w barcode = Reply 200 (Some (PDict d)) ->
          py_eq_num (default PNone (d !! "status")) (NInt 1) = false
          \/ py_truthy (default PNone (d !! "product")) = false ->
          fst (fetch_barcode_data barcode w) = Returned PNone)
    /\ (forall d p n : gmap string pyval,
          product_found (next_reply w barcode) d p n ->
          fst (fetch_barcode_data barcode w) = Returned (record_of p n)
          /\ py_getitem (record_of p n) "name"
             = Returned (default (PStr "Unknown Product") (p !! "product_name"))
          /\ forall field source,
               In (field, source) nutrient_sources ->
               py_getitem (record_of p n) field
               = Returned (default (PInt 0) (n !! source))).
Proof.
  intros barcode w.
  split; [|split; [|split; [|split; [|split]]]].
  - destruct (fetch_barcode_data_shape barcode w) as (r & lv & msg & -> & Hr).
    eauto.
  - apply fetch_net_fails.
  - apply fetch_bad_status.
  - apply fetch_not_json.
  - apply fetch_not_found.
  - intros d p n Hfound. split; [|split].
    + apply (fetch_found barcode w d p n Hfound).
    + unfold record_of, py_dict. simpl. rewrite lookup_insert_eq. reflexivity.
    + intros field source Hin. unfold record_of, py_dict. simpl in *.
      repeat (destruct Hin as [[= <- <-]|Hin];
              [rewrite ?lookup_insert_ne by discriminate;
               rewrite lookup_insert_eq; reflexivity|]).
      contradiction.
Qed.

(** ** The cache file *)

Lemma load_nutrition_db_json v w :
  db_file w = FJson v ->
  load_nutrition_db w = (Returned v, emit w [Log INFO MsgLoaded]).
Proof.
  intros Hfile. unfold load_nutrition_db, path_exists, open_read, json_load. run.
  rewrite Hfile. simpl. rewrite Hfile. reflexivity.
Qed.

Lemma save_nutrition_db_writable db w :
  disk_writable w = true ->
  save_nutrition_db db w =
    (Returned tt,
     emit (set_db_file (emit w [Persist db]) (FJson db)) [Log INFO MsgSaved]).
Proof.
  intros Hdisk. unfold save_nutrition_db, write_json. run.
  rewrite Hdisk. reflexivity.
Qed.

(** A save always returns; it is one more save in the trace, and with a
    disk that takes the write the file holds what was saved. *)
Lemma save_nutrition_db_effect db w :
  exists w',
    save_nutrition_db db w = (Returned tt, w')
    /\ http_calls w' = http_calls w
    /\ persists w' = persists w ++ [db]
    /\ (disk_writable w = true -> db_file w' = FJson db).
Proof.
  destruct (disk_writable w) eqn:Hdisk.
  - rewrite (save_nutrition_db_writable db w Hdisk).
    eexists. split; [reflexivity|].
    unfold http_calls, persists, http_calls_of, persists_of. simpl.
    rewrite <- !app_assoc, !omap_app. simpl. rewrite !app_nil_r.
    repeat split.
  - unfold save_nutrition_db, write_json. run. rewrite Hdisk. simpl.
    destruct (open_refused w); simpl;
      (eexists; split; [reflexivity|]);
      unfold http_calls, persists, http_calls_of, persists_of; simpl;
      rewrite <- ?app_assoc, !omap_app; simpl; rewrite ?app_nil_r;
      (split; [reflexivity|split; [reflexivity|discriminate]]).
Qed.


(** ** The scan loop *)

Section LoopStep.
Variables (db : gmap string pyval) (cache : gmap string pyval).
Variables (barcode : Decoded) (rest : list Decoded) (barcode_data : string).
Hypothesis Hdata : decode_utf8 (data barcode) = Returned barcode_data.
Hypothesis Hstore : db !! "barcodes" = Some (PDict cache).

Lemma scan_loop_hit (w : world) info name :
  type barcode <> "PDF417" ->
  cache !! barcode_data = Some info ->
  py_truthy info = true ->
  py_getitem info "name" = Returned name ->
  scan_loop (PDict db) (barcode :: rest) w =
    (Returned info,
     emit w [CacheGet barcode_data; Log INFO (MsgCacheHit barcode_data name)]).
Proof.
  intros Htype Hcached Htruthy Hname. simpl. run.
  rewrite Hdata. simpl.
  apply String.eqb_neq in Htype. rewrite Htype.
  rewrite Hstore. simpl. rewrite Hcached. simpl.
  rewrite Htruthy, Hname. simpl. rewrite emit_emit. reflexivity.
Qed.

(** What the loop does on a miss: one call of the client, then either the
    insert and the save, or the two warnings and the next symbol. *)
Lemma scan_loop_miss (w : world) :
  type barcode <> "PDF417" ->
  py_truthy (default PNone (cache !! barcode_data)) = false ->
  scan_loop (PDict db) (barcode :: rest) w =
    match fetch_barcode_data barcode_data (emit w [CacheGet barcode_data]) with
    | (Returned info, w1) =>
        if py_truthy info then
          (Returned info,
           snd (save_nutrition_db
                  (PDict (<["barcodes" := PDict (<[barcode_data := info]> cache)]> db))
                  w1))
        else
          scan_loop (PDict db) rest
            (emit w1 [Log WARNING (MsgNotInOFF barcode_data);
                      StWarning ("Barcode " ++ barcode_data
                        ++ " not found in database or Open Food Facts.")%string])
    | (Raised e, w1) => (Raised e, w1)
    end.
Proof.
  intros Htype Hmiss. simpl. run.
  rewrite Hdata. simpl.
  apply String.eqb_neq in Htype. rewrite Htype.
  rewrite Hstore. simpl. rewrite Hmiss.
  destruct (fetch_barcode_data barcode_data (emit w [CacheGet barcode_data]))
    as [[info|e] w1]; [|reflexivity].
  destruct (py_truthy info); simpl.
  - destruct (save_nutrition_db_effect
                (PDict (<["barcodes" := PDict (<[barcode_data := info]> cache)]> db)) w1)
      as (w2 & -> & _).
    reflexivity.
  - rewrite emit_emit. reflexivity.
Qed.
End LoopStep.

(** What the client returns is decided by the server's reply alone. *)
Lemma fetch_barcode_data_by_reply barcode w w' :
  next_reply w barcode = next_reply w' barcode ->
  fst (fetch_barcode_data barcode w) = fst (fetch_barcode_data barcode w').
Proof.
  unfold next_reply, fetch_barcode_data, requests_get, response_json. run.
  intros <-.
  destruct (net w (length (http_calls w)) barcode) as [|code json]; simpl;
    [reflexivity|].
  destruct (code =? 200); simpl; [|reflexivity].
  destruct json as [body|]; simpl; [|reflexivity].
  destruct body as [| | | | |d]; simpl; try reflexivity.
  destruct (py_eq_num (default PNone (d !! "status")) (NInt 1)); simpl;
    [|reflexivity].
  destruct (py_truthy (default PNone (d !! "product"))); simpl; [|reflexivity].
  destruct (d !! "product") as [product|]; simpl; [|reflexivity].
  destruct product as [| | | | |p]; simpl; try reflexivity.
  destruct (default (py_dict []) (p !! "nutriments")) as [| | | | |n]; simpl;
    reflexivity.
Qed.

Lemma next_reply_emit w evs barcode :
  http_calls_of evs = [] ->
  next_reply (emit w evs) barcode = next_reply w barcode.
Proof.
  intros Hnone. unfold next_reply. rewrite http_calls_emit, Hnone, app_nil_r.
  reflexivity.
Qed.

(** The client's answer, as a pair with the world it leaves. *)
Lemma fetch_barcode_data_after w evs barcode info :
  http_calls_of evs = [] ->
  fst (fetch_barcode_data barcode w) = Returned info ->
  exists w1,
    fetch_barcode_data barcode (emit w evs) = (Returned info, w1)
    /\ http_calls w1 = http_calls w ++ [barcode]
    /\ persists w1 = persists w ++ persists_of evs
    /\ db_file w1 = db_file w
    /\ disk_writable w1 = disk_writable w.
Proof.
  intros Hnone Hinfo.
  rewrite (fetch_barcode_data_by_reply barcode w (emit w evs)) in Hinfo
    by (symmetry; apply next_reply_emit; exact Hnone).
  destruct (fetch_barcode_data barcode (emit w evs)) as [r w1] eqn:Hfetch.
  simpl in Hinfo. subst r.
  destruct (fetch_barcode_data_frame _ _ _ _ Hfetch)
    as (Hcalls & Hpersists & _ & Hfile & Hdisk & _).
  exists w1. split; [reflexivity|].
  rewrite Hcalls, Hpersists, Hfile, Hdisk, http_calls_emit, persists_emit, Hnone,
    app_nil_r.
  repeat split.
Qed.

(** ** [scan_barcode] *)

(** With a store on file and a symbol decoded, [scan_barcode] returns what
    its loop returns. *)
Lemma scan_barcode_runs_loop (db : gmap string pyval) cache barcode rest w result w' :
  db_file w = FJson (PDict db) ->
  db !! "barcodes" = Some cache ->
  scan_loop (PDict db) (barcode :: rest) (emit w [Log INFO MsgLoaded])
    = (Returned result, w') ->
  scan_barcode (Symbols (barcode :: rest)) w = (Returned result, w').
Proof.
  intros Hfile Hstore Hloop. unfold scan_barcode, bind.
  rewrite (load_nutrition_db_json _ _ Hfile).
  rewrite (py_truthy_dict db _ _ Hstore).
  unfold try_except, preprocess_and_decode, bind, ret. cbn -[scan_loop].
  rewrite Hloop. reflexivity.
Qed.



Section Miss.
Variables (db cache : gmap string pyval).
Variables (barcode : Decoded) (rest : list Decoded) (barcode_data : string).
Hypothesis Hdata : decode_utf8 (data barcode) = Returned barcode_data.
Hypothesis Htype : type barcode <> "PDF417".
Hypothesis Hstore : db !! "barcodes" = Some (PDict cache).
Hypothesis Hmiss : cache !! barcode_data = None.


Lemma scan_loop_gives_up (quiet : list event) (w : world) :
  http_calls_of quiet = [] -> persists_of quiet = [] ->
  fst (fetch_barcode_data barcode_data w) = Returned PNone ->
  exists w',
    scan_loop (PDict db) (barcode :: rest) (emit w quiet)
      = scan_loop (PDict db) rest w'
    /\ fetched_nothing w w' barcode_data.
Proof.
  intros Hq1 Hq2 Hnone.
  rewrite (scan_loop_miss db cache barcode rest barcode_data Hdata Hstore
             (emit w quiet) Htype) by (rewrite Hmiss; reflexivity).
  rewrite emit_emit.
  destruct (fetch_barcode_data_after w (quiet ++ [CacheGet barcode_data])
              barcode_data PNone) as (w1 & -> & Hcalls & Hpersists & Hfile & Hdisk);
    [unfold http_calls_of; rewrite omap_app; fold (http_calls_of quiet);
     rewrite Hq1; reflexivity | exact Hnone |].
  simpl py_truthy. cbv iota.
  eexists. split; [reflexivity|].
  unfold fetched_nothing.
  rewrite http_calls_emit, persists_emit. simpl. rewrite !app_nil_r.
  rewrite Hcalls, Hpersists.
  unfold persists_of at 1. rewrite omap_app. fold (persists_of quiet).
  rewrite Hq2. simpl. rewrite app_nil_r.
  repeat split. exact Hfile.
Qed.
End Miss.

Lemma emit_nil w : emit w [] = w.
Proof. destruct w. unfold emit. simpl. rewrite app_nil_r. reflexivity. Qed.



(** C8. A barcode that is not a key of the store and for which the client
    returns [None] is not resolved: the loop goes on to the next symbol
    with the store it had, [scan_barcode] returns [None] when the symbol
    is the only one of the image, the file is as it was and
    [save_nutrition_db] is not called. *)
Theorem unresolved_barcode_leaves_store_unchanged :
  forall (db cache : gmap string pyval) barcode rest barcode_data,
    decode_utf8 (data barcode) = Returned barcode_data ->
    type barcode <> "PDF417" ->
    db !! "barcodes" = Some (PDict cache) ->
    cache !! barcode_data = None ->
    (forall w,
       fst (fetch_barcode_data barcode_data w) = Returned PNone ->
       exists w',
         scan_loop (PDict db) (barcode :: rest) w = scan_loop (PDict db) rest w'
         /\ fetched_nothing w w' barcode_data)
    /\
    (forall w,
       db_file w = FJson (PDict db) ->
       fst (fetch_barcode_data barcode_data w) = Returned PNone ->
       exists w',
         scan_barcode (Symbols [barcode]) w = (Returned PNone, w')
         /\ fetched_nothing w w' barcode_data).
Proof.
  intros db cache barcode rest barcode_data Hdata Htype Hstore Hmiss.
  split.
  - intros w Hnone.
    destruct (scan_loop_gives_up db cache barcode rest barcode_data
                Hdata Htype Hstore Hmiss [] w)
      as (w' & Hloop & Hpost); auto.
    rewrite emit_nil in Hloop. eauto.
  - intros w Hfile Hnone.
    destruct (scan_loop_gives_up db cache barcode [] barcode_data
                Hdata Htype Hstore Hmiss [Log INFO MsgLoaded] w)
      as (w' & Hloop & Hpost); auto.
    exists w'. split; [|exact Hpost].
    apply (scan_barcode_runs_loop db (PDict cache) barcode [] w _ _ Hfile Hstore).
    rewrite Hloop. reflexivity.
Qed.

(** A payload that is not UTF-8 ends the scan, whatever the symbology: the
    [decode] of line 90 raises before the symbology is looked at. *)
Lemma undecodable_payload_ends_scan db barcode rest w :
  decode_utf8 (data barcode) = Raised UnicodeDecodeError ->
  scan_loop db (barcode :: rest) w = (Raised UnicodeDecodeError, w).
Proof. intros Hdata. simpl. run. rewrite Hdata. reflexivity. Qed.

Lemma decode_utf8_cases bytes :
  (exists text, decode_utf8 bytes = Returned text)
  \/ decode_utf8 bytes = Raised UnicodeDecodeError.
Proof. unfold decode_utf8. destruct (utf8_valid _); eauto. Qed.

Lemma pdf417_step db barcode barcode_data rest w :
  type barcode = "PDF417" ->
  decode_utf8 (data barcode) = Returned barcode_data ->
  let w' := emit w [Log WARNING (MsgSkipPDF417 barcode_data);
                    StWarning ("PDF417 barcode " ++ barcode_data
                      ++ " not supported. Use UPC/EAN format.")%string] in
  scan_loop db (barcode :: rest) w = scan_loop db rest w'
  /\ cache_gets w' = cache_gets w
  /\ http_calls w' = http_calls w.
Proof.
  intros Htype Hdata w'. subst w'. split.
  - simpl. run. rewrite Hdata, Htype. simpl. rewrite emit_emit. reflexivity.
  - rewrite cache_gets_emit, http_calls_emit. simpl. rewrite !app_nil_r. auto.
Qed.

(** C4, as amended.  A symbol of symbology PDF417 is passed over.  What
    the loop does for the symbol involves no lookup in the store and no
    call of the remote client; and, when the payload decodes as UTF-8
    text, the loop logs a warning, shows one, and goes on with the
    remaining symbols of the image. *)
Theorem pdf417_skipped_and_scan_continues :
  forall db barcode,
    type barcode = "PDF417" ->
    (forall w,
       cache_gets (snd (scan_loop db [barcode] w)) = cache_gets w
       /\ http_calls (snd (scan_loop db [barcode] w)) = http_calls w)
    /\
    (forall barcode_data rest w,
       decode_utf8 (data barcode) = Returned barcode_data ->
       let w' := emit w [Log WARNING (MsgSkipPDF417 barcode_data);
                         StWarning ("PDF417 barcode " ++ barcode_data
                           ++ " not supported. Use UPC/EAN format.")%string] in
       scan_loop db (barcode :: rest) w = scan_loop db rest w'
       /\ cache_gets w' = cache_gets w
       /\ http_calls w' = http_calls w).
Proof.
  intros db barcode Htype. split.
  - intros w. destruct (decode_utf8_cases (data barcode)) as [[text Hdata]|Hdata].
    + destruct (pdf417_step db barcode text [] w Htype Hdata) as (-> & Hgets & Hcalls).
      simpl. auto.
    + rewrite (undecodable_payload_ends_scan db barcode [] w Hdata). auto.
  - intros barcode_data rest w Hdata. apply pdf417_step; assumption.
Qed.

(** Over a whole image: every request the loop makes is for a payload that
    the store does not resolve. *)
Lemma scan_loop_requests_only_misses (db cache : gmap string pyval) :
  db !! "barcodes" = Some (PDict cache) ->
  forall barcodes w,
  exists asked,
    http_calls (snd (scan_loop (PDict db) barcodes w)) = http_calls w ++ asked
    /\ Forall (fun payload =>
                 py_truthy (default PNone (cache !! payload)) = false) asked.
Proof.
  intros Hstore barcodes.
  induction barcodes as [|barcode rest IH]; intros w.
  { exists []. simpl. rewrite app_nil_r. auto. }
  destruct (decode_utf8_cases (data barcode)) as [[payload Hdata]|Hdata].
  2: { rewrite (undecodable_payload_ends_scan _ _ _ _ Hdata).
       exists []. simpl. rewrite app_nil_r. auto. }
  destruct (String.eqb_spec (type barcode) "PDF417") as [Htype|Htype].
  { destruct (pdf417_step (PDict db) barcode payload rest w Htype Hdata) as [-> _].
    destruct (IH (emit w [Log WARNING (MsgSkipPDF417 payload);
                          StWarning ("PDF417 barcode " ++ payload
                            ++ " not supported. Use UPC/EAN format.")%string]))
      as (asked & Hcalls & Hasked).
    exists asked. rewrite Hcalls, http_calls_emit. simpl. rewrite app_nil_r. auto. }
  destruct (py_truthy (default PNone (cache !! payload))) eqn:Hcached.
  - exists []. rewrite app_nil_r. split; [|constructor].
    simpl. run. rewrite Hdata. simpl.
    apply String.eqb_neq in Htype. rewrite Htype.
    rewrite Hstore. simpl. rewrite Hcached.
    destruct (py_getitem (default PNone (cache !! payload)) "name"); simpl;
      rewrite ?http_calls_emit; simpl; rewrite ?app_nil_r; reflexivity.
  - rewrite (scan_loop_miss db cache barcode rest payload Hdata Hstore w Htype Hcached).
    destruct (fetch_barcode_data payload (emit w [CacheGet payload]))
      as [result w1] eqn:Hfetch.
    destruct (fetch_barcode_data_frame _ _ _ _ Hfetch) as (Hcalls & _).
    rewrite http_calls_emit in Hcalls. simpl in Hcalls. rewrite app_nil_r in Hcalls.
    destruct result as [info|e].
    + destruct (py_truthy info).
      * destruct (save_nutrition_db_effect
                    (PDict (<["barcodes" := PDict (<[payload := info]> cache)]> db)) w1)
          as (w2 & -> & Hsame & _).
        exists [payload]. simpl. rewrite Hsame, Hcalls. auto.
      * destruct (IH (emit w1 [Log WARNING (MsgNotInOFF payload);
                               StWarning ("Barcode " ++ payload
                                 ++ " not found in database or Open Food Facts.")%string]))
          as (asked & Hrest & Hasked).
        exists (payload :: asked). rewrite Hrest, http_calls_emit. simpl.
        rewrite app_nil_r, Hcalls, <- app_assoc. auto.
    + exists [payload]. simpl. rewrite Hcalls. auto.
Qed.

(** C1. A barcode that is a key of the store, under a record with a name,
    is resolved from the store: the loop of [scan_barcode] returns the
    cached record when it reaches the symbol, and so does [scan_barcode]
    when the symbol is the first of the image; the trace gains a cache
    lookup and a log record and no request to the remote client.  Nor is
    a request for that barcode made anywhere else in a scan: whatever the
    symbols of the image, the requests of the loop leave it out. *)
Theorem cached_barcode_resolved_without_remote_call :
  forall (db cache record : gmap string pyval) name barcode_data,
    db !! "barcodes" = Some (PDict cache) ->
    cache !! barcode_data = Some (PDict record) ->
    record !! "name" = Some name ->
    (forall barcode rest,
       decode_utf8 (data barcode) = Returned barcode_data ->
       type barcode <> "PDF417" ->
       (forall w,
          let w' := emit w [CacheGet barcode_data;
                            Log INFO (MsgCacheHit barcode_data name)] in
          scan_loop (PDict db) (barcode :: rest) w = (Returned (PDict record), w')
          /\ http_calls w' = http_calls w)
       /\
       (forall w,
          db_file w = FJson (PDict db) ->
          let w' := emit w [Log INFO MsgLoaded; CacheGet barcode_data;
                            Log INFO (MsgCacheHit barcode_data name)] in
          scan_barcode (Symbols (barcode :: rest)) w = (Returned (PDict record), w')
          /\ http_calls w' = http_calls w))
    /\
    (forall barcodes w,
       exists asked,
         http_calls (snd (scan_loop (PDict db) barcodes w)) = http_calls w ++ asked
         /\ ~ In barcode_data asked).
Proof.
  intros db cache record name barcode_data Hstore Hcached Hname.
  assert (Htruthy : py_truthy (PDict record) = true)
    by exact (py_truthy_dict record _ _ Hname).
  split.
  - intros barcode rest Hdata Htype.
    assert (Hloop : forall w,
      scan_loop (PDict db) (barcode :: rest) w =
        (Returned (PDict record),
         emit w [CacheGet barcode_data; Log INFO (MsgCacheHit barcode_data name)])).
    { intros w.
      apply (scan_loop_hit db cache barcode rest barcode_data Hdata Hstore w
               (PDict record) name Htype Hcached Htruthy).
      simpl. rewrite Hname. reflexivity. }
    split; intros w.
    + split; [apply Hloop|].
      rewrite http_calls_emit. simpl. apply app_nil_r.
    + intros Hfile. split.
      * apply (scan_barcode_runs_loop db (PDict cache) barcode rest w _ _ Hfile Hstore).
        rewrite Hloop, emit_emit. reflexivity.
      * rewrite http_calls_emit. simpl. apply app_nil_r.
  - intros barcodes w.
    destruct (scan_loop_requests_only_misses db cache Hstore barcodes w)
      as (asked & Hcalls & Hasked).
    exists asked. split; [exact Hcalls|].
    intros Hin. rewrite Forall_forall in Hasked.
    specialize (Hasked barcode_data).
    rewrite Hcached in Hasked. simpl default in Hasked.
    rewrite Htruthy in Hasked.
    assert (true = false) by (apply Hasked, list_elem_of_In; exact Hin).
    discriminate.
Qed.

(** ** Decode failure against an image without symbols *)

(** C5, as amended.  [scan_barcode] absorbs a decode failure: its caller
    gets the same value as for an image without symbols ([None] whenever a
    store was loaded).  The two cases differ in the log alone: an error
    record with the exception for the failure, an info record for the
    image without symbols. *)
Theorem decode_failure_absorbed_like_no_barcode :
  forall e w,
    fst (scan_barcode (Undecodable e) w) = fst (scan_barcode (Symbols []) w)
    /\ (forall db w1,
          load_nutrition_db w = (Returned db, w1) ->
          py_truthy db = true ->
          scan_barcode (Undecodable e) w
            = (Returned PNone, emit w1 [Log ERROR (MsgScanFailed e)])
          /\ scan_barcode (Symbols []) w
            = (Returned PNone, emit w1 [Log INFO MsgNoBarcodes])).
Proof.
  intros e w. unfold scan_barcode, bind.
  destruct (load_nutrition_db w) as [[db|e0] w1]; [|split; [reflexivity|]].
  - destruct (py_truthy db) eqn:Htruthy; simpl.
    + split; [reflexivity|].
      intros db0 w0 [= <- <-] _. split; reflexivity.
    + split; [reflexivity|].
      intros db0 w0 [= <- <-] Hdb. congruence.
  - intros db w0 [=].
Qed.

(** Scenario A: every threshold is met. *)
Example scenario_A builtin_str :
  check_nutrition builtin_str Sample.oats
    (NInt 400) (NInt 2) (NInt 5) (NInt 90) (NInt 10) (NInt 1)
  = Returned (true, []).
Proof. reflexivity. Qed.

(** Scenario B: the calorie limit is exceeded. *)
Example scenario_B builtin_str :
  check_nutrition builtin_str Sample.oats
    (NInt 100) (NInt 2) (NInt 5) (NInt 90) (NInt 10) (NInt 1)
  = Returned (false, ["Calories (120 > 100)"]).
Proof. reflexivity. Qed.

(** A record without a protein figure, under the default thresholds of the
    sliders: the protein line compares 0 with 2 and then reads the missing
    field. *)
Example missing_protein_raises builtin_str :
  check_nutrition builtin_str (py_dict [("name", PStr "Water")])
    (NInt 400) (NInt 2) (NInt 5) (NInt 90) (NInt 10) (NInt 1)
  = Raised (KeyError "protein").
Proof. reflexivity. Qed.

(** Scenario C: not in the store, not known to the server. *)
Example scenario_C :
  let (result, w) :=
    scan_barcode (Symbols [Sample.symbol "0000000000000" "EAN13"]) Sample.world0 in
  result = Returned PNone
  /\ db_file w = db_file Sample.world0
  /\ persists w = []
  /\ http_calls w = ["0000000000000"].
Proof. vm_compute. repeat split. Qed.

(** Scenario D: no symbol in the image, no request. *)
Example scenario_D :
  let (result, w) := scan_barcode (Symbols []) Sample.world0 in
  result = Returned PNone /\ http_calls w = [].
Proof. vm_compute. repeat split. Qed.

(** A first run: no file yet; the store is created, the product fetched
    and written, and the next scan answers from the store. *)
Example first_run_then_hit :
  let w0 := set_db_file Sample.world0 FMissing in
  let image := Symbols [Sample.symbol "7" "PDF417";
                        Sample.symbol "4000000000000" "EAN13";
                        Sample.symbol "3000000000000" "EAN13"] in
  let (first, w1) := scan_barcode image w0 in
  let (second, w2) := scan_barcode image w1 in
  first = Returned Sample.cornflakes
  /\ second = Returned Sample.cornflakes
  /\ http_calls w1 = ["4000000000000"; "3000000000000"]
  /\ http_calls w2 = ["4000000000000"; "3000000000000"; "4000000000000"].
Proof. vm_compute. repeat split. Qed.

(** * The theorems at the worked inputs *)

Lemma cached_barcode_resolved_at_sample :
  let w' := emit Sample.world0
              [Log INFO MsgLoaded; CacheGet "5000159407236";
               Log INFO (MsgCacheHit "5000159407236" (PStr "Oats"))] in
  scan_barcode (Symbols [Sample.symbol "5000159407236" "EAN13"]) Sample.world0
    = (Returned Sample.oats, w')
  /\ http_calls w' = http_calls Sample.world0.
Proof.
  destruct (cached_barcode_resolved_without_remote_call
              Sample.store Sample.cache Sample.oats_fields (PStr "Oats")
              "5000159407236")
    as [Hhit _]; [vm_compute; reflexivity ..|].
  destruct (Hhit (Sample.symbol "5000159407236" "EAN13") []) as [_ Hscan];
    [vm_compute; reflexivity | discriminate |].
  apply (Hscan Sample.world0). reflexivity.
Defined.


Lemma unresolved_barcode_at_sample :
  exists w',
    scan_barcode (Symbols [Sample.symbol "0000000000000" "EAN13"]) Sample.world0
      = (Returned PNone, w')
    /\ fetched_nothing Sample.world0 w' "0000000000000".
Proof.
  destruct (unresolved_barcode_leaves_store_unchanged
              Sample.store Sample.cache
              (Sample.symbol "0000000000000" "EAN13") [] "0000000000000")
    as (_ & Hscan);
    [vm_compute; reflexivity | discriminate | vm_compute; reflexivity
    | vm_compute; reflexivity |].
  apply (Hscan Sample.world0); vm_compute; reflexivity.
Defined.

Lemma pdf417_skipped_at_sample :
  let w' := emit Sample.world0
              [Log WARNING (MsgSkipPDF417 "7");
               StWarning "PDF417 barcode 7 not supported. Use UPC/EAN format."] in
  scan_loop (PDict Sample.store)
      [Sample.symbol "7" "PDF417"; Sample.symbol "5000159407236" "EAN13"]
      Sample.world0
    = scan_loop (PDict Sample.store) [Sample.symbol "5000159407236" "EAN13"] w'
  /\ cache_gets w' = cache_gets Sample.world0
  /\ http_calls w' = http_calls Sample.world0.
Proof.
  destruct (pdf417_skipped_and_scan_continues (PDict Sample.store)
              (Sample.symbol "7" "PDF417"))
    as [_ Hskip]; [reflexivity|].
  apply (Hskip "7" [Sample.symbol "5000159407236" "EAN13"] Sample.world0).
  vm_compute. reflexivity.
Defined.

(** C4 as the specification words it does not hold: a PDF417 symbol whose
    payload is not UTF-8 ends the scan at line 90, before its symbology is
    looked at, and the cached symbol after it is not reached. *)
Lemma binary_pdf417_ends_the_scan :
  ~ scanning_continues (PDict Sample.store) Cases.binary_pdf417
      [Sample.symbol "5000159407236" "EAN13"] Sample.world0
  /\ fst (scan_barcode (Symbols [Cases.binary_pdf417;
                                 Sample.symbol "5000159407236" "EAN13"])
                       Sample.world0)
     = Returned PNone
  /\ fst (scan_barcode (Symbols [Sample.symbol "5000159407236" "EAN13"])
                       Sample.world0)
     = Returned Sample.oats.
Proof.
  split; [|split; vm_compute; reflexivity].
  intros [w' Hcontinues].
  rewrite (scan_loop_hit Sample.store Sample.cache
             (Sample.symbol "5000159407236" "EAN13") [] "5000159407236"
             eq_refl eq_refl w' Sample.oats (PStr "Oats"))
    in Hcontinues;
    [|discriminate | reflexivity | reflexivity | reflexivity].
  apply (f_equal fst) in Hcontinues. vm_compute in Hcontinues. discriminate.
Qed.

(** C5 as the specification words it does not hold: after a decode failure
    the caller of [scan_barcode] holds [None], as it does after an image
    without symbols. *)
Lemma decode_failure_not_distinguished :
  ~ decode_failure_distinguished ImageError Sample.world0.
Proof. intros Hdistinct. apply Hdistinct. vm_compute. reflexivity. Qed.

Lemma decode_failure_absorbed_at_sample :
  let w1 := emit Sample.world0 [Log INFO MsgLoaded] in
  scan_barcode (Undecodable ImageError) Sample.world0
    = (Returned PNone, emit w1 [Log ERROR (MsgScanFailed ImageError)])
  /\ scan_barcode (Symbols []) Sample.world0
    = (Returned PNone, emit w1 [Log INFO MsgNoBarcodes]).
Proof.
  destruct (decode_failure_absorbed_like_no_barcode ImageError Sample.world0)
    as [_ Hlog].
  apply (Hlog (PDict Sample.store)); vm_compute; reflexivity.
Defined.

Lemma fetch_barcode_data_contract_at_sample :
  fst (fetch_barcode_data "3000000000000" Sample.world0) = Returned Sample.cornflakes
  /\ fst (fetch_barcode_data "4000000000000" Sample.world0) = Returned PNone
  /\ fst (fetch_barcode_data "0000000000000" Sample.world0) = Returned PNone.
Proof.
  split; [|split].
  - destruct (fetch_barcode_data_contract "3000000000000" Sample.world0)
      as (_ & _ & _ & _ & _ & Hfound).
    destruct (Hfound Sample.body Sample.product Sample.nutriments) as [Hrecord _].
    + repeat split; vm_compute; reflexivity.
    + rewrite Hrecord. vm_compute. reflexivity.
  - destruct (fetch_barcode_data_contract "4000000000000" Sample.world0)
      as (_ & _ & Hstatus & _).
    apply (Hstatus 404 None); [vm_compute; reflexivity | lia].
  - destruct (fetch_barcode_data_contract "0000000000000" Sample.world0)
      as (_ & _ & _ & _ & Habsent & _).
    apply (Habsent (list_to_map [("status", PInt 0)]));
      [vm_compute; reflexivity | left; vm_compute; reflexivity].
Defined.

Lemma oats_full_record : full_record Sample.oats_fields.
Proof.
  intros key Hkey. simpl in Hkey.
  repeat (destruct Hkey as [<-|Hkey];
          [eexists _, _; split; vm_compute; reflexivity|]).
  contradiction.
Defined.

Lemma oats_short_fields : short_fields Sample.oats_fields.
Proof.
  intros key v Hkey Hv. simpl in Hkey.
  repeat (destruct Hkey as [<-|Hkey];
          [vm_compute in Hv; injection Hv as <-; vm_compute; reflexivity|]).
  contradiction.
Defined.

(** Thresholds given as numerals are far below the limit of [str]. *)
Ltac short_limits :=
  let limit := fresh "limit" in
  let Hin := fresh "Hin" in
  intros limit Hin; simpl in Hin;
  repeat (destruct Hin as [<-|Hin]; [vm_compute; reflexivity|]);
  contradiction.

Lemma passed_iff_no_mismatch_at_sample :
  (true = true <-> @nil string = [])
  /\ exists passed mismatches,
       check_nutrition Sample.plain_str Sample.oats
         (NInt 400) (NInt 2) (NInt 5) (NInt 90) (NInt 10) (NInt 1)
       = Returned (passed, mismatches)
       /\ (passed = true <-> mismatches = []).
Proof.
  destruct (passed_iff_no_mismatch Sample.plain_str
              (NInt 400) (NInt 2) (NInt 5) (NInt 90) (NInt 10) (NInt 1))
    as [Hiff Hfull].
  split.
  - apply (Hiff Sample.oats true []); vm_compute; reflexivity.
  - apply (Hfull Sample.oats_fields);
      [exact oats_full_record | exact oats_short_fields | short_limits].
Defined.

Lemma at_threshold_no_mismatch_at_sample :
  check_nutrition Sample.plain_str Sample.oats
    (NInt 120) (NInt 3) (NFloat (S754_finite false 1 1)) (NInt 20) (NInt 5) (NInt 2)
  = Returned (true, []).
Proof.
  apply (at_threshold_no_mismatch Sample.plain_str Sample.oats_fields
           (PInt 120) (PInt 3) (PInt 2) (PInt 20) (PInt 5) (PInt 2));
    vm_compute; reflexivity.
Defined.

(** C10 as the specification words it does not hold: with the six keys
    present and the protein held as a text, the comparison of line 117
    raises [TypeError]. *)
Lemma six_keys_are_not_enough :
  all_six_keys Cases.text_protein
  /\ ~ returns_without_error Sample.plain_str (PDict Cases.text_protein)
        (NInt 400) (NInt 2) (NInt 5) (NInt 90) (NInt 10) (NInt 1).
Proof.
  split.
  - intros key Hkey. simpl in Hkey.
    repeat (destruct Hkey as [<-|Hkey];
            [eexists; vm_compute; reflexivity|]).
    contradiction.
  - intros (passed & mismatches & Hreturned).
    vm_compute in Hreturned. discriminate.
Qed.

Lemma check_nutrition_total_at_sample :
  returns_without_error Sample.plain_str Sample.oats
    (NInt 100) (NInt 5) (NInt 1) (NInt 10) (NInt 1) (NInt 10)
  /\ exists key op limit,
       In (key, op, limit) [("calories", OpGt, NInt 400); ("protein", OpLt, NInt 2);
                            ("fat", OpGt, NInt 5); ("carbs", OpGt, NInt 90);
                            ("sugar", OpGt, NInt 10); ("fiber", OpLt, NInt 1)]
       /\ KeyError "protein" = KeyError key
       /\ Sample.water !! key = None
       /\ cmp_holds op (num_compare (NInt 0) limit) = true.
Proof.
  split.
  - destruct (check_nutrition_total_on_full_record Sample.plain_str
                (NInt 100) (NInt 5) (NInt 1) (NInt 10) (NInt 1) (NInt 10))
      as [Htotal _]; [short_limits|].
    apply (Htotal Sample.oats_fields);
      [exact oats_full_record | exact oats_short_fields].
  - destruct (check_nutrition_total_on_full_record Sample.plain_str
                (NInt 400) (NInt 2) (NInt 5) (NInt 90) (NInt 10) (NInt 1))
      as [_ Honly]; [short_limits|].
    apply (Honly Sample.water (KeyError "protein")).
    + intros key v Hkey Hv. simpl in Hkey.
      repeat (destruct Hkey as [<-|Hkey]; [vm_compute in Hv; discriminate|]).
      contradiction.
    + intros key v Hkey Hv. simpl in Hkey.
      repeat (destruct Hkey as [<-|Hkey]; [vm_compute in Hv; discriminate|]).
      contradiction.
    + vm_compute. reflexivity.
Defined.

(** * Further properties of the program *)

(** ** [load_nutrition_db] and [save_nutrition_db] *)

(** What a load can do to the world: it writes the file only to create it,
    and makes no request, no lookup and no save. *)
Lemma load_nutrition_db_frame w result w' :
  load_nutrition_db w = (result, w') ->
  http_calls w' = http_calls w
  /\ cache_gets w' = cache_gets w
  /\ persists w' = persists w
  /\ disk_writable w' = disk_writable w
  /\ net w' = net w
  /\ (db_file w <> FMissing -> db_file w' = db_file w).
Proof.
  unfold load_nutrition_db, path_exists, write_json, open_read, json_load. run.
  destruct w as [file disk refused server evs]. simpl.
  destruct file as [| |e|v]; simpl; try destruct disk; try destruct refused;
    simpl;
    intros [= <- <-]; unfold http_calls, cache_gets, persists; simpl;
    unfold http_calls_of, cache_gets_of, persists_of;
    rewrite <- ?app_assoc, ?omap_app; simpl; rewrite ?app_nil_r;
    repeat split; congruence.
Qed.

(** A load returns unless it has to create the file and cannot. *)
Lemma load_nutrition_db_returns w :
  db_file w <> FMissing \/ disk_writable w = true ->
  exists db w1, load_nutrition_db w = (Returned db, w1).
Proof.
  unfold load_nutrition_db, path_exists, write_json, open_read, json_load. run.
  destruct w as [file disk refused server evs]. simpl.
  destruct file as [| |e|v]; simpl; intros Hstore.
  - destruct Hstore as [?|Hdisk]; [contradiction|].
    rewrite Hdisk. simpl. eauto.
  - eauto.
  - eauto.
  - eauto.
Qed.

Lemma load_nutrition_db_raises w :
  db_file w = FMissing -> disk_writable w = false ->
  exists w', load_nutrition_db w = (Raised OSError, w').
Proof.
  unfold load_nutrition_db, path_exists, write_json, open_read, json_load. run.
  destruct w as [file disk refused server evs]. simpl. intros -> ->.
  destruct refused; simpl; eauto.
Qed.

(** X1. A file that exists never makes [load_nutrition_db] fail, and is
    never written by it: JSON content is returned as it is; a file that
    cannot be opened, or whose content [json.load] rejects, gives
    [{"barcodes": {}}] and an error record in the log that carries the
    exception raised ([OSError] by [open]; by [json.load],
    [JSONDecodeError] for a text that is not JSON, [UnicodeDecodeError]
    for bytes that are not text). *)
Theorem load_existing_file_fails_open :
  forall w,
    db_file w <> FMissing ->
    exists v w',
      load_nutrition_db w = (Returned v, w')
      /\ db_file w' = db_file w
      /\ (forall v0, db_file w = FJson v0 ->
            v = v0 /\ events w' = events w ++ [Log INFO MsgLoaded])
      /\ (db_file w = FUnreadable ->
            v = empty_db
            /\ events w' = events w ++ [Log ERROR (MsgLoadFailed OSError)])
      /\ (forall e, db_file w = FGarbage e ->
            v = empty_db
            /\ events w' = events w ++ [Log INFO MsgLoaded;
                                        Log ERROR (MsgLoadFailed e)]).
Proof.
  intros w Hthere.
  unfold load_nutrition_db, path_exists, write_json, open_read, json_load. run.
  destruct w as [file disk refused server evs]. simpl in *.
  destruct file as [| |e|v]; simpl; [contradiction| | |];
    do 2 eexists; (split; [reflexivity|]); simpl;
    rewrite <- ?app_assoc; simpl;
    repeat split; intros; try discriminate; try congruence.
Qed.

(** X2. With no file yet, [load_nutrition_db] creates it: on a disk that
    takes the write the file then holds [{"barcodes": {}}], which is
    returned; on a disk that does not, the load raises [OSError] (the
    creation is outside its [try]).  If it is [open] that was refused
    there is still no file; if the write failed after [open] (a full
    disk), an empty file is left behind, and the next load reads it as
    [{"barcodes": {}}]. *)
Theorem load_creates_missing_file :
  forall w,
    db_file w = FMissing ->
    (disk_writable w = true ->
       exists w',
         load_nutrition_db w = (Returned empty_db, w')
         /\ db_file w' = FJson empty_db
         /\ events w' = events w ++ [Log INFO MsgCreating; Log INFO MsgLoaded])
    /\
    (disk_writable w = false ->
       exists w',
         load_nutrition_db w = (Raised OSError, w')
         /\ events w' = events w ++ [Log INFO MsgCreating]
         /\ (open_refused w = true -> db_file w' = FMissing)
         /\ (open_refused w = false ->
               db_file w' = FGarbage JSONDecodeError
               /\ fst (load_nutrition_db w') = Returned empty_db)).
Proof.
  intros w Hmissing. split.
  - unfold load_nutrition_db, path_exists, write_json, open_read, json_load.
    run. destruct w as [file disk refused server evs]. simpl in *. subst file.
    intros ->. simpl. eexists. split; [reflexivity|]. simpl.
    rewrite <- ?app_assoc. auto.
  - destruct w as [file disk refused server evs]. simpl in *. subst file.
    intros ->.
    destruct refused.
    + eexists. split; [reflexivity|]. simpl.
      split; [reflexivity|]. split; [reflexivity|]. discriminate.
    + eexists. split; [reflexivity|]. simpl.
      split; [reflexivity|]. split; [discriminate|].
      intros _. split; reflexivity.
Qed.

(** X3. Loading is stable: when a load returns a store, the next load
    returns the same store and leaves the file as the first one left
    it, whatever the file was to begin with. *)
Theorem load_twice_same_store :
  forall w v w',
    load_nutrition_db w = (Returned v, w') ->
    exists w'',
      load_nutrition_db w' = (Returned v, w'')
      /\ db_file w'' = db_file w'.
Proof.
  intros w v w'.
  unfold load_nutrition_db, path_exists, write_json, open_read, json_load. run.
  destruct w as [file disk refused server evs]. simpl.
  destruct file as [| |e|v0]; simpl; try destruct disk; try destruct refused;
    simpl;
    intros [= <- <-]; simpl; eexists; split; reflexivity.
Qed.


(** ** One turn of the loop of [scan_barcode], for any store value *)

Lemma candidate_some barcode barcode_data :
  decode_utf8 (data barcode) = Returned barcode_data ->
  type barcode <> "PDF417" ->
  candidate barcode = Some barcode_data.
Proof.
  intros Hdata Htype. unfold candidate.
  apply String.eqb_neq in Htype. rewrite Htype, Hdata. reflexivity.
Qed.

(** The six ways a turn can go: it raises before anything is done; it
    raises on a cached record that has no name; it passes a PDF417 symbol
    over; it answers from the store; it answers from the client and saves;
    or it finds nothing and goes on. *)
Lemma scan_loop_turn db barcode rest w :
  (exists e, scan_loop db (barcode :: rest) w = (Raised e, w))
  \/
  (exists s (top cache : gmap string pyval) info e,
     candidate barcode = Some s
     /\ db = PDict top /\ top !! "barcodes" = Some (PDict cache)
     /\ cache !! s = Some info /\ py_truthy info = true
     /\ py_getitem info "name" = Raised e
     /\ scan_loop db (barcode :: rest) w = (Raised e, emit w [CacheGet s]))
  \/
  (exists s,
     candidate barcode = None
     /\ scan_loop db (barcode :: rest) w =
          scan_loop db rest
            (emit w [Log WARNING (MsgSkipPDF417 s);
                     StWarning ("PDF417 barcode " ++ s
                       ++ " not supported. Use UPC/EAN format.")%string]))
  \/
  (exists s (top cache : gmap string pyval) info name,
     candidate barcode = Some s
     /\ db = PDict top /\ top !! "barcodes" = Some (PDict cache)
     /\ cache !! s = Some info /\ py_truthy info = true
     /\ py_getitem info "name" = Returned name
     /\ scan_loop db (barcode :: rest) w =
          (Returned info, emit w [CacheGet s; Log INFO (MsgCacheHit s name)]))
  \/
  (exists s (top cache : gmap string pyval) p n lv msg w',
     candidate barcode = Some s
     /\ db = PDict top /\ top !! "barcodes" = Some (PDict cache)
     /\ py_truthy (default PNone (cache !! s)) = false
     /\ save_nutrition_db (with_record top cache s (record_of p n))
          (emit w [CacheGet s; HttpGet s; Log lv msg]) = (Returned tt, w')
     /\ scan_loop db (barcode :: rest) w = (Returned (record_of p n), w'))
  \/
  (exists s (top cache : gmap string pyval) lv msg,
     candidate barcode = Some s
     /\ db = PDict top /\ top !! "barcodes" = Some (PDict cache)
     /\ py_truthy (default PNone (cache !! s)) = false
     /\ scan_loop db (barcode :: rest) w =
          scan_loop db rest
            (emit w [CacheGet s; HttpGet s; Log lv msg;
                     Log WARNING (MsgNotInOFF s);
                     StWarning ("Barcode " ++ s
                       ++ " not found in database or Open Food Facts.")%string])).
Proof.
  destruct (decode_utf8_cases (data barcode)) as [[s Hdata]|Hdata].
  2: { left. exists UnicodeDecodeError.
       apply undecodable_payload_ends_scan; exact Hdata. }
  destruct (String.eqb_spec (type barcode) "PDF417") as [Htype|Htype].
  { right; right; left. exists s. split.
    - unfold candidate. rewrite Htype. reflexivity.
    - apply (pdf417_step db barcode s rest w Htype Hdata). }
  pose proof (candidate_some barcode s Hdata Htype) as Hcand.
  assert (Hraise : forall e,
    (py_getitem db "barcodes" = Raised e
     \/ exists cachev, py_getitem db "barcodes" = Returned cachev
                       /\ py_get cachev s PNone = Raised e) ->
    scan_loop db (barcode :: rest) w = (Raised e, w)).
  { intros e Hcase. simpl. run. rewrite Hdata. simpl.
    apply String.eqb_neq in Htype. rewrite Htype.
    destruct Hcase as [-> | (cachev & -> & Hget)]; [reflexivity|].
    simpl. rewrite Hget. reflexivity. }
  destruct (py_getitem db "barcodes") as [cachev|e] eqn:Hstore.
  2: { left. exists e. apply Hraise. auto. }
  destruct (py_get cachev s PNone) as [info|e] eqn:Hget.
  2: { left. exists e. apply Hraise. eauto. }
  destruct db as [| | | | |top]; try discriminate.
  simpl in Hstore. destruct (top !! "barcodes") as [x|] eqn:Htop; [|discriminate].
  injection Hstore as ->.
  destruct cachev as [| | | | |cache]; try discriminate.
  simpl in Hget. injection Hget as <-.
  destruct (py_truthy (default PNone (cache !! s))) eqn:Htruthy.
  - destruct (cache !! s) as [info|] eqn:Hcached; [|discriminate].
    simpl in Htruthy.
    destruct (py_getitem info "name") as [name|e] eqn:Hname.
    + right; right; right; left. exists s, top, cache, info, name.
      repeat (split; [assumption || reflexivity|]).
      apply (scan_loop_hit top cache barcode rest s Hdata Htop w info name);
        assumption.
    + right; left. exists s, top, cache, info, e.
      repeat (split; [assumption || reflexivity|]).
      simpl. run. rewrite Hdata. simpl.
      apply String.eqb_neq in Htype. rewrite Htype.
      rewrite Htop. simpl. rewrite Hcached. simpl. rewrite Htruthy, Hname.
      reflexivity.
  - rewrite (scan_loop_miss top cache barcode rest s Hdata Htop w Htype Htruthy).
    destruct (fetch_barcode_data_shape s (emit w [CacheGet s]))
      as (r & lv & msg & -> & Hr).
    rewrite emit_emit. simpl app.
    destruct Hr as [-> | (d & p & n & _ & ->)].
    + right; right; right; right; right. exists s, top, cache, lv, msg.
      repeat (split; [assumption || reflexivity|]).
      simpl py_truthy. cbv iota.
      rewrite emit_emit. reflexivity.
    + right; right; right; right; left.
      rewrite record_of_truthy.
      destruct (save_nutrition_db_effect (with_record top cache s (record_of p n))
                  (emit w [CacheGet s; HttpGet s; Log lv msg]))
        as (w' & Hsave & _).
      exists s, top, cache, p, n, lv, msg, w'.
      repeat (split; [assumption || reflexivity|]).
      unfold with_record in *. rewrite Hsave. reflexivity.
Qed.

(** ** [scan_barcode] as a whole *)

Lemma save_nutrition_db_frame db w w' :
  save_nutrition_db db w = (Returned tt, w') ->
  http_calls w' = http_calls w
  /\ cache_gets w' = cache_gets w
  /\ persists w' = persists w ++ [db]
  /\ disk_writable w' = disk_writable w.
Proof.
  unfold save_nutrition_db, write_json. run.
  destruct w as [file disk refused server evs]. simpl.
  destruct disk; [|destruct refused]; simpl; intros [= <-];
    unfold http_calls, cache_gets, persists; simpl;
    unfold http_calls_of, cache_gets_of, persists_of;
    rewrite <- ?app_assoc, ?omap_app; simpl; rewrite ?app_nil_r;
    repeat split.
Qed.

(** How [scan_barcode] ends, by what the load, the decoding and the loop
    do. *)
Lemma scan_barcode_cases img w :
  match load_nutrition_db w with
  | (Raised e, w1) => scan_barcode img w = (Raised e, w1)
  | (Returned db, w1) =>
      if py_truthy db then
        match img with
        | Undecodable e =>
            scan_barcode img w
            = (Returned PNone, emit w1 [Log ERROR (MsgScanFailed e)])
        | Symbols [] =>
            scan_barcode img w = (Returned PNone, emit w1 [Log INFO MsgNoBarcodes])
        | Symbols barcodes =>
            match scan_loop db barcodes w1 with
            | (Returned result, w2) => scan_barcode img w = (Returned result, w2)
            | (Raised e, w2) =>
                scan_barcode img w
                = (Returned PNone, emit w2 [Log ERROR (MsgScanFailed e)])
            end
        end
      else scan_barcode img w = (Returned PNone, w1)
  end.
Proof.
  unfold scan_barcode, bind.
  destruct (load_nutrition_db w) as [[db|e] w1]; [|reflexivity].
  destruct (py_truthy db); [|reflexivity].
  unfold try_except, preprocess_and_decode, raise, ret, logging, tell, bind.
  destruct img as [e|[|barcode rest]]; cbn -[scan_loop]; try reflexivity.
  destruct (scan_loop db (barcode :: rest) w1) as [[result|e] w2]; reflexivity.
Qed.

(** X5. [scan_barcode] raises in one situation only: there is no store
    file and the disk refuses to create one; then it raises the [OSError]
    of the load, which is outside its [try].  In every other world it
    returns, whatever the image. *)
Theorem scan_barcode_raises_only_without_store :
  forall img w,
    (db_file w = FMissing /\ disk_writable w = false ->
       exists w', scan_barcode img w = (Raised OSError, w'))
    /\
    (db_file w <> FMissing \/ disk_writable w = true ->
       exists result w', scan_barcode img w = (Returned result, w')).
Proof.
  intros img w. pose proof (scan_barcode_cases img w) as Hcases. split.
  - intros [Hmissing Hdisk].
    destruct (load_nutrition_db_raises w Hmissing Hdisk) as (w' & Hload).
    rewrite Hload in Hcases. eauto.
  - intros Hstore.
    destruct (load_nutrition_db_returns w Hstore) as (db & w1 & Hload).
    rewrite Hload in Hcases.
    destruct (py_truthy db); [|eauto].
    destruct img as [e|[|barcode rest]]; eauto.
    destruct (scan_loop db (barcode :: rest) w1) as [[result|e] w2]; eauto.
Qed.

(** Over a whole image: the payloads looked up and the payloads asked of
    the client. *)
Lemma scan_loop_lookups_and_requests db barcodes : forall w,
  exists looked asked,
    cache_gets (snd (scan_loop db barcodes w)) = cache_gets w ++ looked
    /\ http_calls (snd (scan_loop db barcodes w)) = http_calls w ++ asked
    /\ looked `prefix_of` candidates barcodes
    /\ asked `sublist_of` looked.
Proof.
  induction barcodes as [|barcode rest IH]; intros w.
  { exists [], []. simpl. rewrite !app_nil_r.
    split; [|split; [|split]]; [reflexivity | reflexivity | apply prefix_nil | constructor]. }
  destruct (scan_loop_turn db barcode rest w)
    as [(e & ->)
       |[(s & top & cache & info & e & Hcand & _ & _ & _ & _ & _ & ->)
       |[(s & Hcand & ->)
        |[(s & top & cache & info & name & Hcand & _ & _ & _ & _ & _ & ->)
         |[(s & top & cache & p & n & lv & msg & w' & Hcand & _ & _ & _ & Hsave & ->)
          |(s & top & cache & lv & msg & Hcand & _ & _ & _ & ->)]]]]];
    unfold candidates; simpl omap; rewrite ?Hcand; simpl snd.
  - exists [], []. rewrite !app_nil_r.
    split; [|split; [|split]];
      [reflexivity | reflexivity | apply prefix_nil | constructor].
  - exists [s], []. rewrite cache_gets_emit, http_calls_emit. simpl.
    rewrite app_nil_r.
    split; [|split; [|split]];
      [reflexivity | reflexivity | apply prefix_cons, prefix_nil | apply sublist_nil_l].
  - destruct (IH (emit w [Log WARNING (MsgSkipPDF417 s);
                          StWarning ("PDF417 barcode " ++ s
                            ++ " not supported. Use UPC/EAN format.")%string]))
      as (looked & asked & Hgets & Hcalls & Hprefix & Hsub).
    exists looked, asked.
    rewrite Hgets, Hcalls, cache_gets_emit, http_calls_emit. simpl.
    rewrite !app_nil_r. auto.
  - exists [s], []. rewrite cache_gets_emit, http_calls_emit. simpl.
    rewrite app_nil_r.
    split; [|split; [|split]];
      [reflexivity | reflexivity | apply prefix_cons, prefix_nil | apply sublist_nil_l].
  - destruct (save_nutrition_db_frame _ _ _ Hsave) as (Hcalls & Hgets & _).
    exists [s], [s].
    rewrite Hgets, Hcalls, cache_gets_emit, http_calls_emit. simpl.
    split; [|split; [|split]];
      [reflexivity | reflexivity | apply prefix_cons, prefix_nil | reflexivity].
  - destruct (IH (emit w [CacheGet s; HttpGet s; Log lv msg;
                          Log WARNING (MsgNotInOFF s);
                          StWarning ("Barcode " ++ s
                            ++ " not found in database or Open Food Facts.")%string]))
      as (looked & asked & Hgets & Hcalls & Hprefix & Hsub).
    exists (s :: looked), (s :: asked).
    rewrite Hgets, Hcalls, cache_gets_emit, http_calls_emit. simpl.
    rewrite <- !app_assoc. simpl.
    split; [|split; [|split]];
      [reflexivity | reflexivity | apply prefix_cons; assumption
      | apply sublist_skip; assumption].
Qed.

(** X6. A scan looks payloads up in image order and asks the client only
    what it has just looked up.  The payloads looked up are a prefix of the
    payloads of the symbols that are not PDF417 (the scan stops at the
    first one resolved, or at an exception); the payloads asked of the
    client are among those looked up, in the same order.  So there is at
    most one request per such symbol, none for a PDF417 symbol, and none
    when decoding fails. *)
Theorem scan_barcode_lookups_and_requests :
  forall img w,
    exists looked asked,
      cache_gets (snd (scan_barcode img w)) = cache_gets w ++ looked
      /\ http_calls (snd (scan_barcode img w)) = http_calls w ++ asked
      /\ looked `prefix_of` candidates (symbols_of img)
      /\ asked `sublist_of` looked.
Proof.
  intros img w. pose proof (scan_barcode_cases img w) as Hcases.
  destruct (load_nutrition_db w) as [r w1] eqn:Hload.
  destruct (load_nutrition_db_frame _ _ _ Hload) as (Hcalls1 & Hgets1 & _).
  assert (Hnone : forall w',
    cache_gets w' = cache_gets w1 -> http_calls w' = http_calls w1 ->
    exists looked asked,
      cache_gets w' = cache_gets w ++ looked
      /\ http_calls w' = http_calls w ++ asked
      /\ looked `prefix_of` candidates (symbols_of img)
      /\ asked `sublist_of` looked).
  { intros w' Hg Hc. exists [], []. rewrite Hg, Hc, Hgets1, Hcalls1, !app_nil_r.
    split; [|split; [|split]]; [reflexivity | reflexivity | apply prefix_nil | constructor]. }
  destruct r as [db|e]; [|rewrite Hcases; apply Hnone; reflexivity].
  destruct (py_truthy db); [|rewrite Hcases; apply Hnone; reflexivity].
  destruct img as [e|[|barcode rest]];
    [rewrite Hcases; simpl snd; apply Hnone;
     [rewrite cache_gets_emit | rewrite http_calls_emit]; simpl;
     apply app_nil_r ..|].
  destruct (scan_loop_lookups_and_requests db (barcode :: rest) w1)
    as (looked & asked & Hgets & Hcalls & Hprefix & Hsub).
  destruct (scan_loop db (barcode :: rest) w1) as [[result|e] w2];
    rewrite Hcases; simpl snd in *; exists looked, asked;
    rewrite ?cache_gets_emit, ?http_calls_emit; simpl;
    rewrite ?app_nil_r, Hgets, Hcalls, Hgets1, Hcalls1; auto.
Qed.

(** Whatever the loop returns other than [None] has a name. *)
Lemma scan_loop_result_has_name db barcodes : forall w result w',
  scan_loop db barcodes w = (Returned result, w') ->
  result = PNone
  \/ exists (record : gmap string pyval) name,
       result = PDict record /\ record !! "name" = Some name.
Proof.
  induction barcodes as [|barcode rest IH]; intros w result w'.
  { intros [= <- <-]. auto. }
  destruct (scan_loop_turn db barcode rest w)
    as [(e & ->)
       |[(s & top & cache & info & e & _ & _ & _ & _ & _ & _ & ->)
       |[(s & _ & ->)
        |[(s & top & cache & info & name & _ & _ & _ & _ & _ & Hname & ->)
         |[(s & top & cache & p & n & lv & msg & w2 & _ & _ & _ & _ & _ & ->)
          |(s & top & cache & lv & msg & _ & _ & _ & _ & ->)]]]]];
    try discriminate; try apply IH.
  - intros [= <- <-]. right.
    destruct info as [| | | | |record]; try discriminate.
    simpl in Hname. destruct (record !! "name") as [x|] eqn:Hx; [|discriminate].
    injection Hname as ->. eauto.
  - intros [= <- <-]. right. unfold record_of, py_dict.
    eexists _, _. split; [reflexivity|]. simpl. apply lookup_insert_eq.
Qed.

(** X7. What [scan_barcode] returns is [None] or a dict that has a
    ["name"]: the record it found in the store passed the read of its
    name (line 97), and the record made by the client carries one.  So
    the [result.get('name')] of [main] never fails. *)
Theorem scan_barcode_result_has_name :
  forall img w result w',
    scan_barcode img w = (Returned result, w') ->
    result = PNone
    \/ exists (record : gmap string pyval) name,
         result = PDict record
         /\ record !! "name" = Some name
         /\ py_get result "name" PNone = Returned name.
Proof.
  intros img w result w' Hscan.
  assert (Hname : result = PNone
                  \/ exists (record : gmap string pyval) name,
                       result = PDict record /\ record !! "name" = Some name).
  { pose proof (scan_barcode_cases img w) as Hcases. rewrite Hscan in Hcases.
    destruct (load_nutrition_db w) as [[db|e] w1]; [|discriminate].
    destruct (py_truthy db); [|injection Hcases as <- _; auto].
    destruct img as [e|[|barcode rest]];
      try (injection Hcases as <- _; auto; fail).
    destruct (scan_loop db (barcode :: rest) w1) as [[r|e] w2] eqn:Hloop.
    - injection Hcases as <- _.
      apply (scan_loop_result_has_name db (barcode :: rest) w1 result w2 Hloop).
    - injection Hcases as <- _. auto. }
  destruct Hname as [->|(record & name & -> & Hname)]; [auto|].
  right. exists record, name. simpl. rewrite Hname. auto.
Qed.

Lemma candidates_cons_in barcode rest s :
  In s (candidates rest) -> In s (candidates (barcode :: rest)).
Proof.
  unfold candidates. simpl. destruct (candidate barcode); simpl; auto.
Qed.

(** X8. A scan saves at most once, and only to add the record it returns.
    Either [save_nutrition_db] is not called and the file is as it was;
    or the store is the loaded one with the returned record put under a
    payload of the image that the store did not resolve, every other
    entry being kept.  The file then holds that store if the disk took
    the write; it is as it was if [open] refused the write; and it has
    been emptied, the store on file being lost, if the write failed after
    [open] (a full disk). *)
Theorem scan_loop_saves_only_the_new_record :
  forall db barcodes w,
    (persists (snd (scan_loop db barcodes w)) = persists w
     /\ db_file (snd (scan_loop db barcodes w)) = db_file w)
    \/
    (exists (top cache : gmap string pyval) s p n,
       db = PDict top /\ top !! "barcodes" = Some (PDict cache)
       /\ In s (candidates barcodes)
       /\ py_truthy (default PNone (cache !! s)) = false
       /\ fst (scan_loop db barcodes w) = Returned (record_of p n)
       /\ persists (snd (scan_loop db barcodes w))
          = persists w ++ [with_record top cache s (record_of p n)]
       /\ (disk_writable w = true ->
           db_file (snd (scan_loop db barcodes w))
           = FJson (with_record top cache s (record_of p n)))
       /\ (disk_writable w = false -> open_refused w = true ->
           db_file (snd (scan_loop db barcodes w)) = db_file w)
       /\ (disk_writable w = false -> open_refused w = false ->
           db_file (snd (scan_loop db barcodes w))
           = FGarbage JSONDecodeError)).
Proof.
  intros db barcodes. induction barcodes as [|barcode rest IH]; intros w.
  { left. simpl. auto. }
  assert (Hgo : forall evs,
    persists_of evs = [] ->
    scan_loop db (barcode :: rest) w = scan_loop db rest (emit w evs) ->
    (persists (snd (scan_loop db (barcode :: rest) w)) = persists w
     /\ db_file (snd (scan_loop db (barcode :: rest) w)) = db_file w)
    \/
    (exists (top cache : gmap string pyval) s p n,
       db = PDict top /\ top !! "barcodes" = Some (PDict cache)
       /\ In s (candidates (barcode :: rest))
       /\ py_truthy (default PNone (cache !! s)) = false
       /\ fst (scan_loop db (barcode :: rest) w) = Returned (record_of p n)
       /\ persists (snd (scan_loop db (barcode :: rest) w))
          = persists w ++ [with_record top cache s (record_of p n)]
       /\ (disk_writable w = true ->
           db_file (snd (scan_loop db (barcode :: rest) w))
           = FJson (with_record top cache s (record_of p n)))
       /\ (disk_writable w = false -> open_refused w = true ->
           db_file (snd (scan_loop db (barcode :: rest) w)) = db_file w)
       /\ (disk_writable w = false -> open_refused w = false ->
           db_file (snd (scan_loop db (barcode :: rest) w))
           = FGarbage JSONDecodeError))).
  { intros evs Hquiet ->.
    destruct (IH (emit w evs))
      as [[Hp Hf]|(top & cache & s & p & n & Hdb & Htop & Hin & Hmiss & Hres
                   & Hp & Hw & Hro & Hfull)].
    - left. rewrite Hp, Hf, persists_emit, Hquiet, app_nil_r. auto.
    - right. exists top, cache, s, p, n.
      rewrite Hp, persists_emit, Hquiet, app_nil_r.
      repeat (split; [assumption || reflexivity || (apply candidates_cons_in; assumption)|]).
      auto. }
  destruct (scan_loop_turn db barcode rest w)
    as [(e & Hturn)
       |[(s & top & cache & info & e & Hcand & _ & _ & _ & _ & _ & Hturn)
       |[(s & Hcand & Hturn)
        |[(s & top & cache & info & name & Hcand & _ & _ & _ & _ & _ & Hturn)
         |[(s & top & cache & p & n & lv & msg & w' & Hcand & Hdb & Htop & Hmiss
            & Hsave & Hturn)
          |(s & top & cache & lv & msg & Hcand & _ & _ & _ & Hturn)]]]]].
  - left. rewrite Hturn. auto.
  - left. rewrite Hturn. simpl. rewrite persists_emit. simpl.
    rewrite app_nil_r. auto.
  - refine (Hgo _ _ Hturn). reflexivity.
  - left. rewrite Hturn. simpl. rewrite persists_emit. simpl.
    rewrite app_nil_r. auto.
  - right. exists top, cache, s, p, n. rewrite Hturn. simpl.
    destruct (save_nutrition_db_frame _ _ _ Hsave) as (_ & _ & Hp & _).
    rewrite persists_emit in Hp. simpl in Hp. rewrite app_nil_r in Hp.
    repeat (split; [assumption || reflexivity|]).
    split; [unfold candidates; simpl; rewrite Hcand; left; reflexivity|].
    repeat (split; [assumption || reflexivity|]).
    split.
    + intros Hdisk.
      rewrite save_nutrition_db_writable in Hsave by exact Hdisk.
      injection Hsave as <-. reflexivity.
    + split; intros Hdisk Hrefused; revert Hsave;
        unfold save_nutrition_db, write_json; run;
        rewrite Hdisk, Hrefused; simpl; intros [= <-]; reflexivity.
  - refine (Hgo _ _ Hturn). reflexivity.
Qed.

(** The loop on a store that has no ["barcodes"] dict: nothing is looked
    up, asked or saved, and nothing but [None] is returned. *)
Lemma scan_loop_without_barcodes_dict db :
  (forall cache : gmap string pyval,
     py_getitem db "barcodes" <> Returned (PDict cache)) ->
  forall barcodes w,
    (fst (scan_loop db barcodes w) = Returned PNone
     \/ exists e, fst (scan_loop db barcodes w) = Raised e)
    /\ http_calls (snd (scan_loop db barcodes w)) = http_calls w
    /\ cache_gets (snd (scan_loop db barcodes w)) = cache_gets w
    /\ persists (snd (scan_loop db barcodes w)) = persists w
    /\ db_file (snd (scan_loop db barcodes w)) = db_file w.
Proof.
  intros Hbad barcodes. induction barcodes as [|barcode rest IH]; intros w.
  { simpl. auto 6. }
  assert (Hno : forall (top cache : gmap string pyval),
            db = PDict top -> top !! "barcodes" = Some (PDict cache) -> False).
  { intros top cache -> Htop. apply (Hbad cache). simpl. rewrite Htop. reflexivity. }
  destruct (scan_loop_turn db barcode rest w)
    as [(e & ->)
       |[(s & top & cache & info & e & _ & Hdb & Htop & _)
       |[(s & _ & ->)
        |[(s & top & cache & info & name & _ & Hdb & Htop & _)
         |[(s & top & cache & p & n & lv & msg & w' & _ & Hdb & Htop & _)
          |(s & top & cache & lv & msg & _ & Hdb & Htop & _)]]]]];
    try (exfalso; exact (Hno top cache Hdb Htop)).
  - simpl. eauto 7.
  - destruct (IH (emit w [Log WARNING (MsgSkipPDF417 s);
                          StWarning ("PDF417 barcode " ++ s
                            ++ " not supported. Use UPC/EAN format.")%string]))
      as (Hres & Hc & Hg & Hp & Hf).
    rewrite Hc, Hg, Hp, Hf, http_calls_emit, cache_gets_emit, persists_emit.
    simpl. rewrite !app_nil_r. auto.
Qed.

(** X9. A store file that is JSON but has no dict under ["barcodes"] (the
    key is missing, or the document is not an object) resolves nothing:
    every scan returns [None], the exception of the failed read being
    absorbed, and nothing is looked up, asked of the client or saved. *)
Theorem store_without_barcodes_resolves_nothing :
  forall db img w,
    db_file w = FJson db ->
    (forall cache : gmap string pyval,
       py_getitem db "barcodes" <> Returned (PDict cache)) ->
    exists w',
      scan_barcode img w = (Returned PNone, w')
      /\ http_calls w' = http_calls w
      /\ cache_gets w' = cache_gets w
      /\ persists w' = persists w
      /\ db_file w' = db_file w.
Proof.
  intros db img w Hfile Hbad.
  pose proof (scan_barcode_cases img w) as Hcases.
  rewrite (load_nutrition_db_json db w Hfile) in Hcases.
  assert (Hquiet : forall evs,
    http_calls_of evs = [] -> cache_gets_of evs = [] -> persists_of evs = [] ->
    forall w1,
      http_calls w1 = http_calls w -> cache_gets w1 = cache_gets w ->
      persists w1 = persists w -> db_file w1 = db_file w ->
      http_calls (emit w1 evs) = http_calls w
      /\ cache_gets (emit w1 evs) = cache_gets w
      /\ persists (emit w1 evs) = persists w
      /\ db_file (emit w1 evs) = db_file w).
  { intros evs H1 H2 H3 w1 Hc Hg Hp Hf.
    rewrite http_calls_emit, cache_gets_emit, persists_emit, H1, H2, H3,
      !app_nil_r. auto. }
  pose proof (Hquiet [Log INFO MsgLoaded] eq_refl eq_refl eq_refl w
                eq_refl eq_refl eq_refl eq_refl) as Hloaded.
  destruct (py_truthy db); [|eauto].
  destruct img as [e|[|barcode rest]].
  - eexists. split; [exact Hcases|].
    apply (Hquiet [_]); try reflexivity; apply Hloaded.
  - eexists. split; [exact Hcases|].
    apply (Hquiet [_]); try reflexivity; apply Hloaded.
  - destruct (scan_loop_without_barcodes_dict db Hbad (barcode :: rest)
                (emit w [Log INFO MsgLoaded]))
      as (Hres & Hc & Hg & Hp & Hf).
    destruct Hloaded as (Hc0 & Hg0 & Hp0 & Hf0).
    destruct (scan_loop db (barcode :: rest) (emit w [Log INFO MsgLoaded]))
      as [[result|e] w2]; simpl fst in Hres; simpl snd in Hc, Hg, Hp, Hf.
    + destruct Hres as [[= ->]|[e [=]]].
      eexists. split; [exact Hcases|]. rewrite Hc, Hg, Hp, Hf. auto.
    + eexists. split; [exact Hcases|].
      apply (Hquiet [_]); try reflexivity; congruence.
Qed.

(** X10. A store file whose JSON value is false for Python (an empty
    object, [null], [0], an empty list or string) stops every scan at
    line 75: [None] is returned without the image being decoded, so not
    even a decode failure is logged. *)
Theorem empty_store_value_skips_the_scan :
  forall db img w,
    db_file w = FJson db ->
    py_truthy db = false ->
    scan_barcode img w = (Returned PNone, emit w [Log INFO MsgLoaded]).
Proof.
  intros db img w Hfile Hfalsy.
  pose proof (scan_barcode_cases img w) as Hcases.
  rewrite (load_nutrition_db_json db w Hfile), Hfalsy in Hcases. exact Hcases.
Qed.

(** X11. One symbol whose payload is not UTF-8 ends the scan, whatever its
    symbology and whatever follows it in the image: [None] is returned
    and the symbols after it are not looked at, cached or not. *)
Theorem undecodable_payload_hides_later_symbols :
  forall db barcode rest w,
    db_file w = FJson db ->
    py_truthy db = true ->
    decode_utf8 (data barcode) = Raised UnicodeDecodeError ->
    scan_barcode (Symbols (barcode :: rest)) w
    = (Returned PNone,
       emit w [Log INFO MsgLoaded; Log ERROR (MsgScanFailed UnicodeDecodeError)]).
Proof.
  intros db barcode rest w Hfile Htruthy Hdata.
  pose proof (scan_barcode_cases (Symbols (barcode :: rest)) w) as Hcases.
  rewrite (load_nutrition_db_json db w Hfile), Htruthy in Hcases.
  rewrite (undecodable_payload_ends_scan db barcode rest _ Hdata) in Hcases.
  rewrite Hcases, emit_emit. reflexivity.
Qed.

(** X12. A cached value that is true for Python but has no readable
    ["name"] (a dict without the key, or a number, a string, a list) is
    not served: reading the name for the log raises, the scan returns
    [None] after the one lookup, the client is not asked and the symbols
    after it are not looked at. *)
Theorem cached_value_without_name_is_not_served :
  forall (db cache : gmap string pyval) barcode rest barcode_data info e w,
    db_file w = FJson (PDict db) ->
    db !! "barcodes" = Some (PDict cache) ->
    decode_utf8 (data barcode) = Returned barcode_data ->
    type barcode <> "PDF417" ->
    cache !! barcode_data = Some info ->
    py_truthy info = true ->
    py_getitem info "name" = Raised e ->
    scan_barcode (Symbols (barcode :: rest)) w
    = (Returned PNone,
       emit w [Log INFO MsgLoaded; CacheGet barcode_data;
               Log ERROR (MsgScanFailed e)]).
Proof.
  intros db cache barcode rest s info e w Hfile Hstore Hdata Htype Hcached
         Htruthy Hname.
  pose proof (scan_barcode_cases (Symbols (barcode :: rest)) w) as Hcases.
  rewrite (load_nutrition_db_json _ w Hfile) in Hcases.
  rewrite (py_truthy_dict db _ _ Hstore) in Hcases.
  assert (Hloop : forall w1,
    scan_loop (PDict db) (barcode :: rest) w1 = (Raised e, emit w1 [CacheGet s])).
  { intros w1. simpl. run. rewrite Hdata. simpl.
    apply String.eqb_neq in Htype. rewrite Htype.
    rewrite Hstore. simpl. rewrite Hcached. simpl. rewrite Htruthy, Hname.
    reflexivity. }
  rewrite Hloop in Hcases. rewrite Hcases, !emit_emit. reflexivity.
Qed.

(** ** [check_nutrition]: what it reports and when it raises *)

Section EvaluatorMore.
Variable builtin_str : pyval -> string.

(** One line on a record that has a number in the field: when the line
    fails its message is appended, unless it cannot be printed. *)
Lemma check_field_line (record : gmap string pyval) key label op limit ms :
  (exists v a, record !! key = Some v /\ as_num v = Some a) ->
  check_field builtin_str (PDict record) key label op limit ms =
    if line_fails record (key, label, op, limit) then
      if line_unprintable record (key, label, op, limit)
      then Raised ValueError
      else Returned (ms ++ [line_message builtin_str record
                                         (key, label, op, limit)])
    else Returned ms.
Proof.
  intros (v & a & Hv & Ha).
  rewrite (check_field_present builtin_str record key label op limit ms v a Hv Ha).
  rewrite mismatch_text_cases.
  unfold line_fails, line_unprintable, line_message. rewrite Hv, Ha.
  destruct (cmp_holds op (num_compare a limit)); [|reflexivity].
  change (default PNone (Some v)) with v.
  destruct (has_long_int v || has_long_int (PNum limit)); reflexivity.
Qed.

(** Splits on whether a line fails and, if so, whether its message can
    be printed; the case that raises is closed. *)
Ltac report_line record line :=
  destruct (line_fails record line);
  [cbn [existsb]; destruct (line_unprintable record line); [reflexivity|]|];
  cbn [obind negb andb orb existsb map app].

(** X13. On a record with a number under each of the six keys, the
    mismatch list is made of the messages of exactly the lines that fail
    ([>] for calories, fat, carbs and sugar, [<] for protein and fiber),
    in the order calories, protein, fat, carbs, sugar, fiber, each worded
    [Label (value OP threshold)]; and [passed] says that no line fails.
    The one exception: when a line that fails has to print an [int] of
    more than 4300 digits, field or threshold, [ValueError] is raised
    instead. *)
Theorem check_nutrition_reports_failing_lines :
  forall record max_calories min_protein max_fat max_carbs max_sugar min_fiber,
    full_record record ->
    let lines := threshold_lines max_calories min_protein max_fat max_carbs
                                 max_sugar min_fiber in
    check_nutrition builtin_str (PDict record) max_calories min_protein
                    max_fat max_carbs max_sugar min_fiber
    = if existsb (line_unprintable record)
                 (List.filter (line_fails record) lines)
      then Raised ValueError
      else Returned (forallb (fun line => negb (line_fails record line)) lines,
                     map (line_message builtin_str record)
                         (List.filter (line_fails record) lines)).
Proof.
  intros record t1 t2 t3 t4 t5 t6 Hfull lines. subst lines.
  unfold check_nutrition.
  destruct (Hfull "calories") as (v & n & Hv & _); [simpl; tauto|].
  rewrite (py_truthy_dict record _ _ Hv). cbn [negb]. cbv zeta.
  assert (Hline : forall key, In key nutrient_keys ->
            exists v a, record !! key = Some v /\ as_num v = Some a)
    by exact Hfull.
  unfold threshold_lines. cbn [List.filter forallb].
  rewrite (check_field_line record "calories" "Calories" OpGt t1 [])
    by (apply Hline; simpl; tauto).
  report_line record ("calories", "Calories", OpGt, t1).
  all: rewrite (check_field_line record "protein" "Protein" OpLt t2)
    by (apply Hline; simpl; tauto).
  all: report_line record ("protein", "Protein", OpLt, t2).
  all: rewrite (check_field_line record "fat" "Fat" OpGt t3)
    by (apply Hline; simpl; tauto).
  all: report_line record ("fat", "Fat", OpGt, t3).
  all: rewrite (check_field_line record "carbs" "Carbs" OpGt t4)
    by (apply Hline; simpl; tauto).
  all: report_line record ("carbs", "Carbs", OpGt, t4).
  all: rewrite (check_field_line record "sugar" "Sugar" OpGt t5)
    by (apply Hline; simpl; tauto).
  all: report_line record ("sugar", "Sugar", OpGt, t5).
  all: rewrite (check_field_line record "fiber" "Fiber" OpLt t6)
    by (apply Hline; simpl; tauto).
  all: report_line record ("fiber", "Fiber", OpLt, t6).
  all: reflexivity.
Qed.

(** What one line can do on a dict: return, raise [KeyError] for its own
    missing key, raise [TypeError] for a field that is not a number, or
    raise [ValueError] for a message it cannot print. *)
Lemma check_field_dict_outcome (record : gmap string pyval) key label op limit ms :
  (exists ms', check_field builtin_str (PDict record) key label op limit ms
               = Returned ms')
  \/ (check_field builtin_str (PDict record) key label op limit ms
        = Raised (KeyError key)
      /\ record !! key = None)
  \/ (check_field builtin_str (PDict record) key label op limit ms
        = Raised TypeError
      /\ exists v, record !! key = Some v /\ as_num v = None)
  \/ (check_field builtin_str (PDict record) key label op limit ms
        = Raised ValueError
      /\ line_fails record (key, label, op, limit) = true
      /\ line_unprintable record (key, label, op, limit) = true).
Proof.
  destruct (record !! key) as [v|] eqn:Hk.
  - destruct (as_num v) as [a|] eqn:Ha.
    + rewrite (check_field_line record key label op limit ms) by eauto.
      destruct (line_fails record (key, label, op, limit)); [|eauto].
      destruct (line_unprintable record (key, label, op, limit)); [|eauto].
      right; right; right. auto.
    + right; right; left.
      rewrite (check_field_not_a_number builtin_str record key label op limit
                 ms v Hk Ha). eauto.
  - rewrite (check_field_missing builtin_str record key label op limit ms Hk).
    destruct (cmp_holds op (num_compare (NInt 0) limit)); eauto.
Qed.

Lemma check_nutrition_dict_raises (record : gmap string pyval) t1 t2 t3 t4 t5 t6 e :
  check_nutrition builtin_str (PDict record) t1 t2 t3 t4 t5 t6 = Raised e ->
  exists key label op limit,
    In (key, label, op, limit) (threshold_lines t1 t2 t3 t4 t5 t6)
    /\ ((e = KeyError key /\ record !! key = None)
        \/ (e = TypeError /\ exists v, record !! key = Some v /\ as_num v = None)
        \/ (e = ValueError
            /\ line_fails record (key, label, op, limit) = true
            /\ line_unprintable record (key, label, op, limit) = true)).
Proof.
  unfold check_nutrition.
  destruct (py_truthy (PDict record)); [|discriminate]. cbn [negb]. cbv zeta.
  repeat match goal with
         | |- context [obind (check_field builtin_str (PDict record) ?k ?l ?o ?t ?ms) _] =>
             destruct (check_field_dict_outcome record k l o t ms)
               as [[? ->]|[[-> Hnone]|[[-> Hbad]|[-> Hlong]]]];
             [cbn [obind]
             |cbn [obind]; intros [= <-]; exists k, l, o, t;
              split; [simpl; tauto|left; auto]
             |cbn [obind]; intros [= <-]; exists k, l, o, t;
              split; [simpl; tauto|right; left; auto]
             |cbn [obind]; intros [= <-]; exists k, l, o, t;
              split; [simpl; tauto|right; right; auto]]
         end.
  discriminate.
Qed.

(** X14. [check_nutrition] raises four exceptions and no other:
    [AttributeError] for a value that is true for Python and is not a dict
    (it has no [get]); on a dict, for one of its six lines, [KeyError]
    when the nutrient key is missing, [TypeError] when the field is not a
    number, and [ValueError] when the line fails and has to print an
    [int] of more than 4300 digits, field or threshold. *)
Theorem check_nutrition_exceptions :
  forall data max_calories min_protein max_fat max_carbs max_sugar min_fiber e,
    check_nutrition builtin_str data max_calories min_protein max_fat
                    max_carbs max_sugar min_fiber = Raised e ->
    (e = AttributeError /\ py_truthy data = true
     /\ forall record, data <> PDict record)
    \/
    (exists record key label op limit,
       data = PDict record
       /\ In (key, label, op, limit)
             (threshold_lines max_calories min_protein max_fat max_carbs
                              max_sugar min_fiber)
       /\ ((e = KeyError key /\ record !! key = None)
           \/ (e = TypeError
               /\ exists v, record !! key = Some v /\ as_num v = None)
           \/ (e = ValueError
               /\ line_fails record (key, label, op, limit) = true
               /\ line_unprintable record (key, label, op, limit) = true))).
Proof.
  intros data t1 t2 t3 t4 t5 t6 e Hraise.
  destruct data as [| | | | |record].
  6: { right. exists record.
       destruct (check_nutrition_dict_raises record t1 t2 t3 t4 t5 t6 e Hraise)
         as (key & label & op & limit & Hline & Hcase).
       exists key, label, op, limit. auto. }
  all: left; revert Hraise; unfold check_nutrition;
    destruct (py_truthy _) eqn:Htruthy; [|discriminate];
    cbn; intros [= <-]; repeat split; try assumption; discriminate.
Qed.

(** The record the client makes has every nutrient field. *)
Lemma record_of_lookup p n field source :
  In (field, source) nutrient_sources ->
  exists record : gmap string pyval,
    record_of p n = PDict record
    /\ record !! field = Some (default (PInt 0) (n !! source)).
Proof.
  intros Hin. unfold record_of, py_dict. eexists. split; [reflexivity|].
  simpl in *.
  repeat (destruct Hin as [[= <- <-]|Hin];
          [rewrite ?lookup_insert_ne by discriminate;
           apply lookup_insert_eq|]).
  contradiction.
Qed.

(** The six keys of the lines are the keys of the record the client
    makes. *)
Lemma nutrient_key_source key :
  In key nutrient_keys -> exists source, In (key, source) nutrient_sources.
Proof.
  simpl. intros Hkey.
  repeat (destruct Hkey as [<-|Hkey]; [eexists; simpl; tauto|]).
  contradiction.
Qed.

Lemma threshold_line_key key label op limit t1 t2 t3 t4 t5 t6 :
  In (key, label, op, limit) (threshold_lines t1 t2 t3 t4 t5 t6) ->
  In key nutrient_keys.
Proof.
  simpl. intros Hline.
  repeat (destruct Hline as [[= <- _ _ _]|Hline]; [tauto|]).
  contradiction.
Qed.

(** X15. What [fetch_barcode_data] returns can be handed to
    [check_nutrition] without fear of a missing field: the evaluation
    returns, or raises [TypeError] because Open Food Facts sent a nutrient
    that is not a number, or [ValueError] because a line that fails has to
    print an [int] of more than 4300 digits; and it returns whenever the
    nutrients sent are numbers and no [int] among them and the thresholds
    is of that size. *)
Theorem fetched_record_is_evaluable :
  forall barcode w result
         max_calories min_protein max_fat max_carbs max_sugar min_fiber,
    fst (fetch_barcode_data barcode w) = Returned result ->
    (returns_without_error builtin_str result max_calories min_protein
                           max_fat max_carbs max_sugar min_fiber
     \/ check_nutrition builtin_str result max_calories min_protein max_fat
                        max_carbs max_sugar min_fiber
        = Raised TypeError
     \/ check_nutrition builtin_str result max_calories min_protein max_fat
                        max_carbs max_sugar min_fiber
        = Raised ValueError)
    /\
    (forall d p n,
       product_found (next_reply w barcode) d p n ->
       (forall field source v,
          In (field, source) nutrient_sources -> n !! source = Some v ->
          (exists a, as_num v = Some a) /\ has_long_int v = false) ->
       short_thresholds max_calories min_protein max_fat max_carbs
                        max_sugar min_fiber ->
       returns_without_error builtin_str result max_calories min_protein
                             max_fat max_carbs max_sugar min_fiber).
Proof.
  intros barcode w result t1 t2 t3 t4 t5 t6 Hfetch.
  destruct (fetch_barcode_data_shape barcode w) as (r & lv & msg & Hshape & Hr).
  rewrite Hshape in Hfetch. simpl in Hfetch. injection Hfetch as ->.
  split.
  - destruct Hr as [->|(d & p & n & _ & ->)];
      [left; exists false, []; reflexivity|].
    unfold returns_without_error.
    destruct (check_nutrition builtin_str (record_of p n) t1 t2 t3 t4 t5 t6)
      as [[passed ms]|e] eqn:Hcheck; [eauto|].
    right.
    destruct (record_of_lookup p n "calories" "energy-kcal_100g")
      as (record & Hrec & _); [simpl; tauto|].
    rewrite Hrec in Hcheck.
    destruct (check_nutrition_dict_raises record t1 t2 t3 t4 t5 t6 e Hcheck)
      as (key & label & op & limit & Hline
          & [[_ Hnone]|[[-> _]|[-> _]]]); [|left; reflexivity|right; reflexivity].
    exfalso.
    destruct (nutrient_key_source key
                (threshold_line_key _ _ _ _ _ _ _ _ _ _ Hline))
      as [source Hsource].
    destruct (record_of_lookup p n key source Hsource) as (record' & Hrec' & Hl).
    rewrite Hrec in Hrec'. injection Hrec' as <-. congruence.
  - intros d p n Hfound Hnum Hlimits.
    assert (result = record_of p n) as ->.
    { pose proof (fetch_found barcode w d p n Hfound) as Hf.
      rewrite Hshape in Hf. simpl in Hf. congruence. }
    destruct (record_of_lookup p n "calories" "energy-kcal_100g")
      as (record & Hrec & _); [simpl; tauto|].
    rewrite Hrec.
    assert (Hfield : forall key,
              In key nutrient_keys ->
              exists v a, record !! key = Some v /\ as_num v = Some a
                          /\ has_long_int v = false).
    { intros key Hkey.
      destruct (nutrient_key_source key Hkey) as [source Hin].
      destruct (record_of_lookup p n key source Hin) as (record' & Hrec' & Hl).
      rewrite Hrec in Hrec'. injection Hrec' as <-.
      destruct (n !! source) as [v|] eqn:Hv; simpl in Hl.
      - destruct (Hnum key source v Hin Hv) as [[a Ha] Hshort]. eauto.
      - exists (PInt 0), (NInt 0). auto. }
    apply check_nutrition_returns_on_full_record; [| |exact Hlimits].
    + intros key Hkey. destruct (Hfield key Hkey) as (v & a & Hv & Ha & _). eauto.
    + intros key v Hkey Hv.
      destruct (Hfield key Hkey) as (v' & a & Hv' & _ & Hshort). congruence.
Qed.
End EvaluatorMore.


(** ** [check_nutrition]: loosening the thresholds *)

Lemma dyadic_compare_scaled m1 e1 m2 e2 E :
  E <= e1 -> E <= e2 ->
  dyadic_compare m1 e1 m2 e2
  = Z.compare (m1 * 2 ^ (e1 - E)) (m2 * 2 ^ (e2 - E)).
Proof.
  intros H1 H2. unfold dyadic_compare.
  set (e := Z.min e1 e2).
  assert (He : E <= e) by (subst e; lia).
  assert (He1 : e <= e1) by (subst e; lia).
  assert (He2 : e <= e2) by (subst e; lia).
  replace (e1 - E) with ((e1 - e) + (e - E)) by lia.
  replace (e2 - E) with ((e2 - e) + (e - E)) by lia.
  rewrite !Z.pow_add_r by lia. rewrite !Z.mul_assoc.
  apply Zmult_compare_compat_r.
  apply Z.lt_gt, Z.pow_pos_nonneg; lia.
Qed.

(** Among finite values: [x <= y] and [y <= z] give [x <= z]. *)
Lemma dyadic_le_trans m1 e1 m2 e2 m3 e3 :
  dyadic_compare m1 e1 m2 e2 <> Gt ->
  dyadic_compare m2 e2 m3 e3 <> Gt ->
  dyadic_compare m1 e1 m3 e3 <> Gt.
Proof.
  set (E := Z.min e1 (Z.min e2 e3)).
  rewrite (dyadic_compare_scaled m1 e1 m2 e2 E) by (subst E; lia).
  rewrite (dyadic_compare_scaled m2 e2 m3 e3 E) by (subst E; lia).
  rewrite (dyadic_compare_scaled m1 e1 m3 e3 E) by (subst E; lia).
  rewrite !Z.compare_le_iff. lia.
Qed.

Lemma dyadic_compare_antisym m1 e1 m2 e2 :
  dyadic_compare m2 e2 m1 e1 = CompOpp (dyadic_compare m1 e1 m2 e2).
Proof.
  unfold dyadic_compare. rewrite (Z.min_comm e2 e1). apply Z.compare_antisym.
Qed.

Lemma xval_compare_antisym x y :
  xval_compare y x = option_map CompOpp (xval_compare x y).
Proof.
  destruct x as [|[]|m1 e1], y as [|[]|m2 e2]; simpl; try reflexivity.
  rewrite dyadic_compare_antisym. reflexivity.
Qed.

(** [x] is not above [y], and [y <= z]: then [x] is not above [z]. *)
Lemma xval_not_above_trans x y z :
  xval_compare x y <> Some Gt ->
  (xval_compare y z = Some Lt \/ xval_compare y z = Some Eq) ->
  xval_compare x z <> Some Gt.
Proof.
  destruct x as [|[]|m1 e1], y as [|[]|m2 e2], z as [|[]|m3 e3]; simpl;
    intros Hxy Hyz; try discriminate; try congruence;
    try (destruct Hyz; discriminate).
  intros [= Hgt]. revert Hgt.
  apply dyadic_le_trans with (m2 := m2) (e2 := e2).
  - congruence.
  - destruct Hyz as [[= ->]|[= ->]]; discriminate.
Qed.

(** [x] is not below [y], and [z <= y]: then [x] is not below [z]. *)
Lemma xval_not_below_trans x y z :
  xval_compare x y <> Some Lt ->
  (xval_compare z y = Some Lt \/ xval_compare z y = Some Eq) ->
  xval_compare x z <> Some Lt.
Proof.
  destruct x as [|[]|m1 e1], y as [|[]|m2 e2], z as [|[]|m3 e3]; simpl;
    intros Hxy Hzy; try discriminate; try congruence;
    try (destruct Hzy; discriminate).
  intros [= Hlt].
  apply (dyadic_le_trans m3 e3 m2 e2 m1 e1).
  - destruct Hzy as [[= ->]|[= ->]]; discriminate.
  - rewrite dyadic_compare_antisym.
    destruct (dyadic_compare m1 e1 m2 e2); simpl; congruence.
  - rewrite dyadic_compare_antisym, Hlt. reflexivity.
Qed.

Lemma num_le_cases a b :
  num_le a b = true ->
  num_compare a b = Some Lt \/ num_compare a b = Some Eq.
Proof.
  unfold num_le. destruct (num_compare a b) as [[]|]; auto; discriminate.
Qed.

(** A field that is not above a maximum is not above a higher one. *)
Lemma line_passes_higher_max data key limit limit' :
  line_passes data key OpGt limit ->
  num_le limit limit' = true ->
  line_passes data key OpGt limit'.
Proof.
  intros (v & a & Hget & Ha & Hc) Hle. exists v, a.
  split; [exact Hget|split; [exact Ha|]].
  apply num_le_cases in Hle. unfold num_compare in *.
  destruct (xval_compare (num_val a) (num_val limit')) as [[]|] eqn:Hcmp;
    try reflexivity.
  exfalso.
  apply (xval_not_above_trans (num_val a) (num_val limit) (num_val limit'));
    [|exact Hle|exact Hcmp].
  intros Hgt. rewrite Hgt in Hc. discriminate.
Qed.

(** A field that is not below a minimum is not below a lower one. *)
Lemma line_passes_lower_min data key limit limit' :
  line_passes data key OpLt limit ->
  num_le limit' limit = true ->
  line_passes data key OpLt limit'.
Proof.
  intros (v & a & Hget & Ha & Hc) Hle. exists v, a.
  split; [exact Hget|split; [exact Ha|]].
  apply num_le_cases in Hle. unfold num_compare in *.
  destruct (xval_compare (num_val a) (num_val limit')) as [[]|] eqn:Hcmp;
    try reflexivity.
  exfalso.
  apply (xval_not_below_trans (num_val a) (num_val limit) (num_val limit'));
    [|exact Hle|exact Hcmp].
  intros Hlt. rewrite Hlt in Hc. discriminate.
Qed.

Section EvaluatorPasses.
Variable builtin_str : pyval -> string.

(** A line that returns either leaves the list as it was, and then it
    passes, or appends one message. *)
Lemma check_field_returned data key label op limit ms ms' :
  check_field builtin_str data key label op limit ms = Returned ms' ->
  (ms' = ms /\ line_passes data key op limit)
  \/ exists message, ms' = (ms ++ [message])%list.
Proof.
  unfold check_field, line_passes.
  destruct (py_get data key (PInt 0)) as [v|e] eqn:Hget; [|discriminate].
  cbn [obind]. unfold py_cmp.
  destruct (as_num v) as [a|] eqn:Ha; [|discriminate]. cbn [obind].
  destruct (cmp_holds op (num_compare a limit)) eqn:Hc.
  - destruct (py_getitem data key) as [shown|e]; [|discriminate].
    cbn [obind].
    destruct (mismatch_text builtin_str label shown op limit)
      as [message|e]; [|discriminate].
    cbn [obind]. intros [= <-]. right. eauto.
  - intros [= <-]. left. split; [reflexivity|]. exists v, a. auto.
Qed.

Lemma check_field_of_line_passes data key label op limit ms :
  line_passes data key op limit ->
  check_field builtin_str data key label op limit ms = Returned ms.
Proof.
  intros (v & a & Hget & Ha & Hc). unfold check_field, py_cmp.
  rewrite Hget. cbn [obind]. rewrite Ha. cbn [obind]. rewrite Hc. reflexivity.
Qed.

(** [check_nutrition] answers [True] exactly when the value is evaluated
    and each of its six lines passes. *)
Lemma check_nutrition_true_iff data t1 t2 t3 t4 t5 t6 mismatches :
  check_nutrition builtin_str data t1 t2 t3 t4 t5 t6
    = Returned (true, mismatches)
  <-> (mismatches = []
       /\ py_truthy data = true
       /\ line_passes data "calories" OpGt t1
       /\ line_passes data "protein" OpLt t2
       /\ line_passes data "fat" OpGt t3
       /\ line_passes data "carbs" OpGt t4
       /\ line_passes data "sugar" OpGt t5
       /\ line_passes data "fiber" OpLt t6).
Proof.
  split.
  - unfold check_nutrition.
    destruct (py_truthy data); [|discriminate]. cbn [negb]. cbv zeta.
    destruct (check_field builtin_str data "calories" "Calories" OpGt t1 [])
      as [ms1|] eqn:H1; [|discriminate]. cbn [obind].
    destruct (check_field builtin_str data "protein" "Protein" OpLt t2 ms1)
      as [ms2|] eqn:H2; [|discriminate]. cbn [obind].
    destruct (check_field builtin_str data "fat" "Fat" OpGt t3 ms2)
      as [ms3|] eqn:H3; [|discriminate]. cbn [obind].
    destruct (check_field builtin_str data "carbs" "Carbs" OpGt t4 ms3)
      as [ms4|] eqn:H4; [|discriminate]. cbn [obind].
    destruct (check_field builtin_str data "sugar" "Sugar" OpGt t5 ms4)
      as [ms5|] eqn:H5; [|discriminate]. cbn [obind].
    destruct (check_field builtin_str data "fiber" "Fiber" OpLt t6 ms5)
      as [ms6|] eqn:H6; [|discriminate]. cbn [obind].
    intros [= Hlen <-].
    apply Nat.eqb_eq, length_zero_iff_nil in Hlen. subst ms6.
    apply check_field_returned in H6 as [[<- P6]|[m Hm]];
      [|exact (False_ind _ (app_cons_not_nil _ _ _ Hm))].
    apply check_field_returned in H5 as [[<- P5]|[m Hm]];
      [|exact (False_ind _ (app_cons_not_nil _ _ _ Hm))].
    apply check_field_returned in H4 as [[<- P4]|[m Hm]];
      [|exact (False_ind _ (app_cons_not_nil _ _ _ Hm))].
    apply check_field_returned in H3 as [[<- P3]|[m Hm]];
      [|exact (False_ind _ (app_cons_not_nil _ _ _ Hm))].
    apply check_field_returned in H2 as [[<- P2]|[m Hm]];
      [|exact (False_ind _ (app_cons_not_nil _ _ _ Hm))].
    apply check_field_returned in H1 as [[_ P1]|[m Hm]];
      [|exact (False_ind _ (app_cons_not_nil _ _ _ Hm))].
    repeat split; assumption.
  - intros (-> & Htruthy & P1 & P2 & P3 & P4 & P5 & P6).
    unfold check_nutrition. rewrite Htruthy. cbn [negb]. cbv zeta.
    rewrite (check_field_of_line_passes _ _ _ _ _ _ P1). cbn [obind].
    rewrite (check_field_of_line_passes _ _ _ _ _ _ P2). cbn [obind].
    rewrite (check_field_of_line_passes _ _ _ _ _ _ P3). cbn [obind].
    rewrite (check_field_of_line_passes _ _ _ _ _ _ P4). cbn [obind].
    rewrite (check_field_of_line_passes _ _ _ _ _ _ P5). cbn [obind].
    rewrite (check_field_of_line_passes _ _ _ _ _ _ P6). cbn [obind].
    reflexivity.
Qed.

(** X16. What passes keeps passing when the preferences are loosened: if
    [check_nutrition] answers [True] for a value, it answers [True], with
    no mismatch, for the same value under any thresholds whose maxima are
    not lower and whose minima are not higher. *)
Theorem looser_thresholds_keep_a_pass :
  forall data mismatches
         max_calories min_protein max_fat max_carbs max_sugar min_fiber
         max_calories' min_protein' max_fat' max_carbs' max_sugar' min_fiber',
    check_nutrition builtin_str data max_calories min_protein max_fat
                    max_carbs max_sugar min_fiber
    = Returned (true, mismatches) ->
    num_le max_calories max_calories' = true ->
    num_le min_protein' min_protein = true ->
    num_le max_fat max_fat' = true ->
    num_le max_carbs max_carbs' = true ->
    num_le max_sugar max_sugar' = true ->
    num_le min_fiber' min_fiber = true ->
    check_nutrition builtin_str data max_calories' min_protein' max_fat'
                    max_carbs' max_sugar' min_fiber'
    = Returned (true, []).
Proof.
  intros data ms t1 t2 t3 t4 t5 t6 t1' t2' t3' t4' t5' t6'
         Hpass L1 L2 L3 L4 L5 L6.
  apply check_nutrition_true_iff in Hpass
    as (_ & Htruthy & P1 & P2 & P3 & P4 & P5 & P6).
  apply check_nutrition_true_iff.
  split; [reflexivity|split; [exact Htruthy|]].
  split; [exact (line_passes_higher_max _ _ _ _ P1 L1)|].
  split; [exact (line_passes_lower_min _ _ _ _ P2 L2)|].
  split; [exact (line_passes_higher_max _ _ _ _ P3 L3)|].
  split; [exact (line_passes_higher_max _ _ _ _ P4 L4)|].
  split; [exact (line_passes_higher_max _ _ _ _ P5 L5)|].
  exact (line_passes_lower_min _ _ _ _ P6 L6).
Qed.

(** One line on a record without the field: it reports nothing. *)
Lemma check_field_missing_returned (record : gmap string pyval)
    key label op limit ms ms' :
  record !! key = None ->
  check_field builtin_str (PDict record) key label op limit ms = Returned ms' ->
  ms' = ms.
Proof.
  intros Hnone. rewrite (check_field_missing builtin_str record key label op
                           limit ms Hnone).
  destruct (cmp_holds op (num_compare (NInt 0) limit)); congruence.
Qed.

Lemma zero_passes_max (record : gmap string pyval) key limit :
  record !! key = None ->
  num_le (NInt 0) limit = true ->
  line_passes (PDict record) key OpGt limit.
Proof.
  intros Hnone Hle. exists (PInt 0), (NInt 0). simpl. rewrite Hnone.
  split; [reflexivity|split; [reflexivity|]].
  apply num_le_cases in Hle as [-> | ->]; reflexivity.
Qed.

Lemma zero_passes_min (record : gmap string pyval) key limit :
  record !! key = None ->
  num_le limit (NInt 0) = true ->
  line_passes (PDict record) key OpLt limit.
Proof.
  intros Hnone Hle. exists (PInt 0), (NInt 0). simpl. rewrite Hnone.
  split; [reflexivity|split; [reflexivity|]].
  apply num_le_cases in Hle. unfold num_compare in *.
  rewrite (xval_compare_antisym (num_val limit) (num_val (NInt 0))).
  destruct Hle as [-> | ->]; reflexivity.
Qed.

(** X17. No mismatch is ever reported for a record that has none of the
    six nutrient fields: whenever [check_nutrition] returns on such a
    record, it answers [True] with an empty list (a line that would fail
    on the default 0 raises [KeyError] instead). It does return when no
    maximum is below 0 and no minimum is above 0. *)
Theorem record_without_nutrients_is_never_reported :
  forall (record : gmap string pyval)
         max_calories min_protein max_fat max_carbs max_sugar min_fiber,
    py_truthy (PDict record) = true ->
    (forall key, In key nutrient_keys -> record !! key = None) ->
    (forall passed mismatches,
       check_nutrition builtin_str (PDict record) max_calories min_protein
                       max_fat max_carbs max_sugar min_fiber
       = Returned (passed, mismatches) ->
       passed = true /\ mismatches = [])
    /\
    (num_le (NInt 0) max_calories = true ->
     num_le min_protein (NInt 0) = true ->
     num_le (NInt 0) max_fat = true ->
     num_le (NInt 0) max_carbs = true ->
     num_le (NInt 0) max_sugar = true ->
     num_le min_fiber (NInt 0) = true ->
     check_nutrition builtin_str (PDict record) max_calories min_protein
                     max_fat max_carbs max_sugar min_fiber
     = Returned (true, [])).
Proof.
  intros record t1 t2 t3 t4 t5 t6 Htruthy Hnone.
  assert (N1 : record !! "calories" = None) by (apply Hnone; simpl; tauto).
  assert (N2 : record !! "protein" = None) by (apply Hnone; simpl; tauto).
  assert (N3 : record !! "fat" = None) by (apply Hnone; simpl; tauto).
  assert (N4 : record !! "carbs" = None) by (apply Hnone; simpl; tauto).
  assert (N5 : record !! "sugar" = None) by (apply Hnone; simpl; tauto).
  assert (N6 : record !! "fiber" = None) by (apply Hnone; simpl; tauto).
  split.
  - intros passed ms. unfold check_nutrition.
    rewrite Htruthy. cbn [negb]. cbv zeta.
    destruct (check_field builtin_str (PDict record) "calories" "Calories"
                OpGt t1 []) as [ms1|] eqn:H1; [|discriminate]. cbn [obind].
    destruct (check_field builtin_str (PDict record) "protein" "Protein"
                OpLt t2 ms1) as [ms2|] eqn:H2; [|discriminate]. cbn [obind].
    destruct (check_field builtin_str (PDict record) "fat" "Fat"
                OpGt t3 ms2) as [ms3|] eqn:H3; [|discriminate]. cbn [obind].
    destruct (check_field builtin_str (PDict record) "carbs" "Carbs"
                OpGt t4 ms3) as [ms4|] eqn:H4; [|discriminate]. cbn [obind].
    destruct (check_field builtin_str (PDict record) "sugar" "Sugar"
                OpGt t5 ms4) as [ms5|] eqn:H5; [|discriminate]. cbn [obind].
    destruct (check_field builtin_str (PDict record) "fiber" "Fiber"
                OpLt t6 ms5) as [ms6|] eqn:H6; [|discriminate]. cbn [obind].
    apply (check_field_missing_returned record _ _ _ _ _ _ N1) in H1.
    apply (check_field_missing_returned record _ _ _ _ _ _ N2) in H2.
    apply (check_field_missing_returned record _ _ _ _ _ _ N3) in H3.
    apply (check_field_missing_returned record _ _ _ _ _ _ N4) in H4.
    apply (check_field_missing_returned record _ _ _ _ _ _ N5) in H5.
    apply (check_field_missing_returned record _ _ _ _ _ _ N6) in H6.
    subst. intros [= <- <-]. split; reflexivity.
  - intros L1 L2 L3 L4 L5 L6.
    apply check_nutrition_true_iff.
    split; [reflexivity|split; [exact Htruthy|]].
    split; [exact (zero_passes_max record _ _ N1 L1)|].
    split; [exact (zero_passes_min record _ _ N2 L2)|].
    split; [exact (zero_passes_max record _ _ N3 L3)|].
    split; [exact (zero_passes_max record _ _ N4 L4)|].
    split; [exact (zero_passes_max record _ _ N5 L5)|].
    exact (zero_passes_min record _ _ N6 L6).
Qed.
End EvaluatorPasses.

(** ** The upload block of [main] *)

Ltac upload_simpl :=
  cbn -[scan_barcode check_nutrition py_truthy py_get render String.concat
        String.append meets_text fails_text In].

(** Runs the block along every path, one goal per path. *)
Ltac upload_cases :=
  unfold shown, upload_block, show_verdict, stry, sbind, may_raise, put,
         value, call, sret;
  upload_simpl;
  repeat (match goal with
          | |- context [st_image ?up] => destruct (st_image up) eqn:?
          | |- context [imdecode ?up] =>
              destruct (imdecode up) as [[?|]|?] eqn:?
          | |- context [scan_barcode ?img ?w] =>
              destruct (scan_barcode img w) as [[?|?] ?] eqn:?
          | |- context [py_truthy ?r] => destruct (py_truthy r) eqn:?
          | |- context [py_get ?r ?k ?d] => destruct (py_get r k d) eqn:?
          | |- context [st_table ?up ?r] => destruct (st_table up r) eqn:?
          | |- context [check_nutrition ?f ?r ?a ?b ?c ?d ?e ?g] =>
              destruct (check_nutrition f r a b c d e g)
                as [[[] [|? ?]]|?] eqn:?
          | |- context [export_clicked ?up] =>
              destruct (export_clicked up) eqn:?
          | |- context [to_csv ?up] => destruct (to_csv up) eqn:?
          end; upload_simpl).

(** A value that is evaluated is never answered [(False, [])]. *)
Ltac no_empty_failure :=
  match goal with
  | Ht : py_truthy ?r = true,
    Hc : check_nutrition ?f ?r _ _ _ _ _ _ = Returned (false, []) |- _ =>
      destruct (check_nutrition_passed f r _ _ _ _ _ _ _ _ Ht Hc) as [_ Habs];
      discriminate (Habs eq_refl)
  end.

Lemma meets_text_is_not_fails_text : meets_text <> fails_text.
Proof. vm_compute. discriminate. Qed.

Section MainFacts.
Variable builtin_str : pyval -> string.
Variables max_calories min_protein max_fat max_carbs max_sugar min_fiber : Z.

(** X18. A record that does not meet the preferences is always shown with
    its reasons: whenever the block writes that the preferences are not
    met, it writes the details of a mismatch list that is not empty, the
    one [check_nutrition] gave for the record [scan_barcode] returned.
    The warning for a failure without details is never shown. *)
Theorem unmet_preferences_are_always_explained :
  forall up w,
    (forall text,
       ~ In (StWarn text)
            (shown builtin_str max_calories min_protein max_fat max_carbs
                   max_sugar min_fiber up w))
    /\
    (In (StWrite [fails_text])
        (shown builtin_str max_calories min_protein max_fat max_carbs
               max_sugar min_fiber up w) ->
     exists img result w' mismatches,
       imdecode up = Returned (Some img)
       /\ scan_barcode img w = (Returned result, w')
       /\ check_nutrition builtin_str result (NInt max_calories)
                          (NInt min_protein) (NInt max_fat) (NInt max_carbs)
                          (NInt max_sugar) (NInt min_fiber)
          = Returned (false, mismatches)
       /\ mismatches <> []
       /\ In (StWrite ["Details:"; String.concat ", " mismatches])
             (shown builtin_str max_calories min_protein max_fat max_carbs
                    max_sugar min_fiber up w)).
Proof.
  intros up w. split.
  - upload_cases; try no_empty_failure;
      intros text Hin; simpl in Hin; intuition discriminate.
  - upload_cases; try no_empty_failure; intros Hin; simpl in Hin;
      try (exfalso; intuition (try discriminate);
           match goal with
           | H : StWrite [meets_text] = StWrite [fails_text] |- _ =>
               injection H as H; exact (meets_text_is_not_fails_text H)
           end);
      do 4 eexists;
      (split; [reflexivity|]); (split; [eassumption|]);
      (split; [eassumption|]); (split; [discriminate|]);
      simpl; tauto.
Qed.

(** X19. The page cannot tell an image that failed to decode from an
    image without a barcode: with the same surroundings, the block puts
    out the same things for both, and once the store is there this is the
    preview followed by the one error [Barcode not recognized]. *)
Theorem decode_failure_is_shown_as_no_barcode :
  forall preview table export csv e w,
    let failed := Upload preview (Returned (Some (Undecodable e)))
                         table export csv in
    let blank := Upload preview (Returned (Some (Symbols [])))
                        table export csv in
    shown builtin_str max_calories min_protein max_fat max_carbs max_sugar
          min_fiber failed w
    = shown builtin_str max_calories min_protein max_fat max_carbs max_sugar
            min_fiber blank w
    /\
    (preview = None ->
     db_file w <> FMissing \/ disk_writable w = true ->
     shown builtin_str max_calories min_protein max_fat max_carbs max_sugar
           min_fiber failed w
     = [StImage;
        StError "Barcode not recognized. Check nutriscan.log for details."]).
Proof.
  intros preview table export csv e w failed blank. subst failed blank.
  pose proof (scan_barcode_cases (Undecodable e) w) as Hfailed.
  pose proof (scan_barcode_cases (Symbols []) w) as Hblank.
  split.
  - destruct (load_nutrition_db w) as [[db|e0] w1];
      [destruct (py_truthy db)|];
      unfold shown, upload_block, stry, sbind, may_raise, put, value, call;
      upload_simpl; rewrite Hfailed, Hblank;
      destruct preview; reflexivity.
  - intros -> Hstore.
    destruct (load_nutrition_db_returns w Hstore) as (db & w1 & Hload).
    rewrite Hload in Hfailed.
    unfold shown, upload_block, stry, sbind, may_raise, put, value, call.
    upload_simpl.
    destruct (py_truthy db); rewrite Hfailed; reflexivity.
Qed.

(** X20. The block writes that the preferences are met in exactly one
    situation: the preview and the table were shown, [scan_barcode]
    returned a record, and each of the six lines of [check_nutrition]
    passes on that record with the values of the sliders. *)
Theorem meets_is_shown_exactly_when_every_line_passes :
  forall up w,
    In (StWrite [meets_text])
       (shown builtin_str max_calories min_protein max_fat max_carbs
              max_sugar min_fiber up w)
    <->
    (st_image up = None
     /\ exists img result w',
          imdecode up = Returned (Some img)
          /\ scan_barcode img w = (Returned result, w')
          /\ py_truthy result = true
          /\ st_table up result = None
          /\ line_passes result "calories" OpGt (NInt max_calories)
          /\ line_passes result "protein" OpLt (NInt min_protein)
          /\ line_passes result "fat" OpGt (NInt max_fat)
          /\ line_passes result "carbs" OpGt (NInt max_carbs)
          /\ line_passes result "sugar" OpGt (NInt max_sugar)
          /\ line_passes result "fiber" OpLt (NInt min_fiber)).
Proof.
  intros up w. split.
  - upload_cases; intros Hin; simpl in Hin;
      try (exfalso; intuition (try discriminate);
           match goal with
           | H : StWrite [fails_text] = StWrite [meets_text] |- _ =>
               injection H as H; symmetry in H;
               exact (meets_text_is_not_fails_text H)
           end);
      (split; [reflexivity|]); do 3 eexists;
      (split; [reflexivity|]); (split; [eassumption|]);
      (split; [assumption|]); (split; [assumption|]);
      match goal with
      | Hc : check_nutrition _ _ _ _ _ _ _ _ = Returned (true, _) |- _ =>
          apply check_nutrition_true_iff in Hc; tauto
      end.
  - intros (Himage & img & result & w' & Hdecode & Hscan & Htruthy & Htable
            & P1 & P2 & P3 & P4 & P5 & P6).
    assert (Hcheck : check_nutrition builtin_str result (NInt max_calories)
                       (NInt min_protein) (NInt max_fat) (NInt max_carbs)
                       (NInt max_sugar) (NInt min_fiber)
                     = Returned (true, []))
      by (apply check_nutrition_true_iff; tauto).
    assert (Hname : exists name, py_get result "name" PNone = Returned name).
    { destruct P1 as (v & _ & Hget & _).
      destruct result; try discriminate. simpl. eauto. }
    destruct Hname as [name Hname].
    unfold shown, upload_block, show_verdict, stry, sbind, may_raise, put,
           value, call, sret.
    upload_simpl.
    rewrite Himage, Hdecode. upload_simpl.
    rewrite Hscan. upload_simpl. rewrite Htruthy, Hname. upload_simpl.
    rewrite Htable, Hcheck. upload_simpl.
    destruct (export_clicked up); [destruct (to_csv up)|];
      upload_simpl; simpl; tauto.
Qed.
End MainFacts.

(** ** The client and the store together *)

(** X21. [fetch_barcode_data] always returns after exactly one request
    and one log record, and it returns a record only for a product: the
    result is [None] if and only if the reply is not a 200 whose JSON
    object has [status] 1 and a non-empty [product] object with
    [nutriments], if any, an object.  A [product] or [nutriments] of
    another JSON type gives [None] like any other failure. *)
Theorem fetch_gives_a_record_only_for_a_product :
  forall barcode w,
    exists result lv msg,
      fetch_barcode_data barcode w
      = (Returned result, emit w [HttpGet barcode; Log lv msg])
      /\ (result = PNone
          <-> ~ exists d p n, product_found (next_reply w barcode) d p n)
      /\ (result <> PNone -> py_truthy result = true).
Proof.
  intros barcode w.
  destruct (fetch_barcode_data_shape barcode w) as (r & lv & msg & Hshape & Hr).
  exists r, lv, msg. split; [exact Hshape|]. split; [split|].
  - intros -> (d & p & n & Hfound).
    pose proof (fetch_found barcode w d p n Hfound) as Hrecord.
    rewrite Hshape in Hrecord. discriminate.
  - intros Hnone. destruct Hr as [->|(d & p & n & Hfound & _)];
      [reflexivity|]. exfalso. apply Hnone. eauto.
  - intros Hsome. destruct Hr as [->|(d & p & n & _ & ->)];
      [contradiction|apply record_of_truthy].
Qed.


(** * The further properties at the worked inputs *)

Lemma load_existing_file_at_sample :
  (exists w',
     load_nutrition_db Cases.binary_world = (Returned empty_db, w')
     /\ db_file w' = FGarbage UnicodeDecodeError
     /\ events w' = [Log INFO MsgLoaded;
                     Log ERROR (MsgLoadFailed UnicodeDecodeError)])
  /\ exists w',
       load_nutrition_db Cases.garbage_world = (Returned empty_db, w')
       /\ events w' = [Log INFO MsgLoaded;
                       Log ERROR (MsgLoadFailed JSONDecodeError)].
Proof.
  split.
  - destruct (load_existing_file_fails_open Cases.binary_world)
      as (v & w' & Hload & Hfile & _ & _ & Hgarbage); [discriminate|].
    destruct (Hgarbage UnicodeDecodeError) as [-> Hevents]; [reflexivity|].
    exists w'. split; [exact Hload|]. split; [exact Hfile | exact Hevents].
  - destruct (load_existing_file_fails_open Cases.garbage_world)
      as (v & w' & Hload & _ & _ & _ & Hgarbage); [discriminate|].
    destruct (Hgarbage JSONDecodeError) as [-> Hevents]; [reflexivity|].
    exists w'. split; [exact Hload | exact Hevents].
Defined.

Lemma load_creates_missing_file_at_sample :
  (exists w',
     load_nutrition_db Cases.first_run = (Returned empty_db, w')
     /\ db_file w' = FJson empty_db)
  /\ (exists w',
        load_nutrition_db Cases.read_only_first_run = (Raised OSError, w')
        /\ db_file w' = FMissing)
  /\ exists w',
       load_nutrition_db Cases.full_disk_first_run = (Raised OSError, w')
       /\ db_file w' = FGarbage JSONDecodeError
       /\ fst (load_nutrition_db w') = Returned empty_db.
Proof.
  split; [|split].
  - destruct (load_creates_missing_file Cases.first_run) as [Hcreate _];
      [reflexivity|].
    destruct Hcreate as (w' & Hload & Hfile & _); [reflexivity|].
    exists w'. split; [exact Hload | exact Hfile].
  - destruct (load_creates_missing_file Cases.read_only_first_run)
      as [_ Hraise]; [reflexivity|].
    destruct Hraise as (w' & Hload & _ & Hrefused & _); [reflexivity|].
    exists w'. split; [exact Hload | apply Hrefused; reflexivity].
  - destruct (load_creates_missing_file Cases.full_disk_first_run)
      as [_ Hraise]; [reflexivity|].
    destruct Hraise as (w' & Hload & _ & _ & Hemptied); [reflexivity|].
    destruct Hemptied as [Hfile Hnext]; [reflexivity|].
    exists w'. split; [exact Hload|]. split; [exact Hfile | exact Hnext].
Defined.

Lemma load_twice_at_sample :
  exists w'',
    load_nutrition_db (emit Sample.world0 [Log INFO MsgLoaded])
    = (Returned (PDict Sample.store), w'')
    /\ db_file w'' = FJson (PDict Sample.store).
Proof.
  apply (load_twice_same_store Sample.world0 (PDict Sample.store)
           (emit Sample.world0 [Log INFO MsgLoaded])).
  vm_compute. reflexivity.
Defined.


Lemma scan_barcode_raises_at_sample :
  (exists w',
     scan_barcode (Symbols []) Cases.read_only_first_run = (Raised OSError, w'))
  /\ exists result w',
       scan_barcode (Symbols []) Cases.first_run = (Returned result, w').
Proof.
  split.
  - destruct (scan_barcode_raises_only_without_store
                (Symbols []) Cases.read_only_first_run) as [Hraise _].
    apply Hraise. split; reflexivity.
  - destruct (scan_barcode_raises_only_without_store
                (Symbols []) Cases.first_run) as [_ Hreturn].
    apply Hreturn. right. reflexivity.
Defined.

Lemma scan_barcode_result_has_name_at_sample :
  Sample.oats = PNone
  \/ exists (record : gmap string pyval) name,
       Sample.oats = PDict record
       /\ record !! "name" = Some name
       /\ py_get Sample.oats "name" PNone = Returned name.
Proof.
  apply (scan_barcode_result_has_name
           (Symbols [Sample.symbol "5000159407236" "EAN13"]) Sample.world0
           Sample.oats
           (snd (scan_barcode (Symbols [Sample.symbol "5000159407236" "EAN13"])
                              Sample.world0))).
  vm_compute. reflexivity.
Defined.

Lemma scan_loop_saves_at_sample :
  db_file (snd (scan_loop (PDict Sample.store)
                          [Sample.symbol "3000000000000" "EAN13"]
                          Cases.full_disk))
  = FGarbage JSONDecodeError.
Proof.
  destruct (scan_loop_saves_only_the_new_record
              (PDict Sample.store) [Sample.symbol "3000000000000" "EAN13"]
              Cases.full_disk)
    as [[Hpersists _]
       |(top & cache & s & p & n & _ & _ & _ & _ & _ & _ & _ & _ & Hemptied)].
  - vm_compute in Hpersists. discriminate.
  - apply Hemptied; reflexivity.
Defined.

Lemma store_without_barcodes_at_sample :
  exists w',
    scan_barcode (Symbols [Sample.symbol "5000159407236" "EAN13"])
                 Cases.number_world
    = (Returned PNone, w')
    /\ http_calls w' = http_calls Cases.number_world
    /\ cache_gets w' = cache_gets Cases.number_world
    /\ persists w' = persists Cases.number_world
    /\ db_file w' = db_file Cases.number_world.
Proof.
  apply (store_without_barcodes_resolves_nothing (PInt 5)).
  - reflexivity.
  - intros cache. discriminate.
Defined.

Lemma empty_store_value_at_sample :
  scan_barcode (Symbols [Sample.symbol "5000159407236" "EAN13"])
               Cases.empty_object_world
  = (Returned PNone, emit Cases.empty_object_world [Log INFO MsgLoaded]).
Proof.
  apply (empty_store_value_skips_the_scan (py_dict [])); reflexivity.
Defined.

Lemma undecodable_payload_at_sample :
  scan_barcode (Symbols [Cases.broken_symbol;
                         Sample.symbol "5000159407236" "EAN13"])
               Sample.world0
  = (Returned PNone,
     emit Sample.world0
          [Log INFO MsgLoaded; Log ERROR (MsgScanFailed UnicodeDecodeError)]).
Proof.
  apply (undecodable_payload_hides_later_symbols (PDict Sample.store));
    vm_compute; reflexivity.
Defined.

Lemma cached_value_without_name_at_sample :
  scan_barcode (Symbols [Sample.symbol "7" "EAN13";
                         Sample.symbol "5000159407236" "EAN13"])
               Cases.nameless_world
  = (Returned PNone,
     emit Cases.nameless_world
          [Log INFO MsgLoaded; CacheGet "7"; Log ERROR (MsgScanFailed TypeError)]).
Proof.
  apply (cached_value_without_name_is_not_served
           Cases.nameless_store Cases.nameless_cache
           (Sample.symbol "7" "EAN13")
           [Sample.symbol "5000159407236" "EAN13"] "7" (PInt 5) TypeError);
    try (vm_compute; reflexivity).
  discriminate.
Defined.

Lemma huge_calories_full_record : full_record Cases.huge_calories.
Proof.
  intros key Hkey. simpl in Hkey.
  repeat (destruct Hkey as [<-|Hkey];
          [eexists _, _; split; vm_compute; reflexivity|]).
  contradiction.
Defined.

Lemma check_nutrition_reports_at_sample :
  check_nutrition Sample.plain_str Sample.oats
    (NInt 100) (NInt 5) (NInt 1) (NInt 10) (NInt 1) (NInt 10)
  = Returned (false,
              ["Calories (120 > 100)"; "Protein (3 < 5)"; "Fat (2 > 1)";
               "Carbs (20 > 10)"; "Sugar (5 > 1)"; "Fiber (2 < 10)"])
  /\ check_nutrition Sample.plain_str (PDict Cases.huge_calories)
       (NInt 400) (NInt 2) (NInt 5) (NInt 90) (NInt 10) (NInt 1)
     = Raised ValueError.
Proof.
  split.
  - refine (eq_trans
              (check_nutrition_reports_failing_lines Sample.plain_str
                 Sample.oats_fields (NInt 100) (NInt 5) (NInt 1) (NInt 10)
                 (NInt 1) (NInt 10) oats_full_record) _).
    vm_compute. reflexivity.
  - refine (eq_trans
              (check_nutrition_reports_failing_lines Sample.plain_str
                 Cases.huge_calories (NInt 400) (NInt 2) (NInt 5) (NInt 90)
                 (NInt 10) (NInt 1) huge_calories_full_record) _).
    vm_compute. reflexivity.
Defined.

Lemma check_nutrition_exceptions_at_sample :
  (ValueError = AttributeError /\ py_truthy (PDict Cases.huge_calories) = true
   /\ forall record, PDict Cases.huge_calories <> PDict record)
  \/
  (exists record key label op limit,
     PDict Cases.huge_calories = PDict record
     /\ In (key, label, op, limit)
           (threshold_lines (NInt 400) (NInt 2) (NInt 5) (NInt 90) (NInt 10)
                            (NInt 1))
     /\ ((ValueError = KeyError key /\ record !! key = None)
         \/ (ValueError = TypeError
             /\ exists v, record !! key = Some v /\ as_num v = None)
         \/ (ValueError = ValueError
             /\ line_fails record (key, label, op, limit) = true
             /\ line_unprintable record (key, label, op, limit) = true))).
Proof.
  apply (check_nutrition_exceptions Sample.plain_str (PDict Cases.huge_calories)
           (NInt 400) (NInt 2) (NInt 5) (NInt 90) (NInt 10) (NInt 1)).
  vm_compute. reflexivity.
Defined.

Lemma fetched_record_is_evaluable_at_sample :
  returns_without_error Sample.plain_str Sample.cornflakes
    (NInt 400) (NInt 2) (NInt 5) (NInt 90) (NInt 10) (NInt 1).
Proof.
  destruct (fetched_record_is_evaluable Sample.plain_str "3000000000000"
              Sample.world0 Sample.cornflakes
              (NInt 400) (NInt 2) (NInt 5) (NInt 90) (NInt 10) (NInt 1))
    as [_ Hnumbers]; [vm_compute; reflexivity|].
  apply (Hnumbers Sample.body Sample.product Sample.nutriments).
  - repeat split; vm_compute; reflexivity.
  - intros field source v Hin Hv. simpl in Hin.
    repeat (destruct Hin as [[= <- <-]|Hin];
            [vm_compute in Hv;
             first [discriminate
                   |injection Hv as <-;
                    split; [eexists; reflexivity | vm_compute; reflexivity]]|]).
    contradiction.
  - short_limits.
Defined.

Lemma looser_thresholds_at_sample :
  check_nutrition Sample.plain_str Sample.oats
    (NInt 400) (NInt 2) (NInt 5) (NInt 90) (NInt 10) (NInt 1)
  = Returned (true, []).
Proof.
  apply (looser_thresholds_keep_a_pass Sample.plain_str Sample.oats []
           (NInt 120) (NInt 3) (NInt 2) (NInt 20) (NInt 5) (NInt 2));
    vm_compute; reflexivity.
Defined.

Lemma record_without_nutrients_at_sample :
  check_nutrition Sample.plain_str (PDict Sample.water)
    (NInt 400) (NInt 0) (NInt 5) (NInt 90) (NInt 10) (NInt 0)
  = Returned (true, []).
Proof.
  destruct (record_without_nutrients_is_never_reported Sample.plain_str
              Sample.water
              (NInt 400) (NInt 0) (NInt 5) (NInt 90) (NInt 10) (NInt 0))
    as [_ Hpass].
  - vm_compute. reflexivity.
  - intros key Hkey. simpl in Hkey.
    repeat (destruct Hkey as [<-|Hkey]; [vm_compute; reflexivity|]).
    contradiction.
  - apply Hpass; vm_compute; reflexivity.
Defined.

Lemma unmet_preferences_at_sample :
  exists img result w' mismatches,
    imdecode Cases.oats_photo = Returned (Some img)
    /\ scan_barcode img Sample.world0 = (Returned result, w')
    /\ check_nutrition Sample.plain_str result
         (NInt 100) (NInt 5) (NInt 1) (NInt 10) (NInt 1) (NInt 10)
       = Returned (false, mismatches)
    /\ mismatches <> []
    /\ In (StWrite ["Details:"; String.concat ", " mismatches])
          (shown Sample.plain_str 100 5 1 10 1 10 Cases.oats_photo
                 Sample.world0).
Proof.
  destruct (unmet_preferences_are_always_explained Sample.plain_str
              100 5 1 10 1 10 Cases.oats_photo Sample.world0)
    as [_ Hexplained].
  apply Hexplained. vm_compute. tauto.
Defined.

Lemma decode_failure_is_shown_at_sample :
  shown Sample.plain_str 400 2 5 90 10 1
        (Upload None (Returned (Some (Undecodable ImageError)))
                (fun _ => None) false None)
        Sample.world0
  = [StImage;
     StError "Barcode not recognized. Check nutriscan.log for details."].
Proof.
  destruct (decode_failure_is_shown_as_no_barcode Sample.plain_str
              400 2 5 90 10 1 None (fun _ => None) false None ImageError
              Sample.world0)
    as [_ Hpage].
  apply Hpage; [reflexivity | left; discriminate].
Defined.

Lemma meets_is_shown_at_sample :
  In (StWrite [meets_text])
     (shown Sample.plain_str 400 2 5 90 10 1 Cases.oats_photo Sample.world0).
Proof.
  apply (meets_is_shown_exactly_when_every_line_passes Sample.plain_str
           400 2 5 90 10 1 Cases.oats_photo Sample.world0).
  split; [reflexivity|].
  exists (Symbols [Sample.symbol "5000159407236" "EAN13"]), Sample.oats,
         (snd (scan_barcode (Symbols [Sample.symbol "5000159407236" "EAN13"])
                            Sample.world0)).
  split; [reflexivity|]. split; [vm_compute; reflexivity|].
  split; [vm_compute; reflexivity|]. split; [reflexivity|].
  repeat split;
    eexists _, _; (split; [vm_compute; reflexivity|]);
    split; vm_compute; reflexivity.
Defined.

Lemma fetch_gives_a_record_at_sample :
  exists result lv msg,
    fetch_barcode_data "0000000000000" Sample.world0
    = (Returned result,
       emit Sample.world0 [HttpGet "0000000000000"; Log lv msg])
    /\ (result = PNone
        <-> ~ exists d p n,
              product_found (next_reply Sample.world0 "0000000000000") d p n)
    /\ (result <> PNone -> py_truthy result = true).
Proof.
  apply (fetch_gives_a_record_only_for_a_product "0000000000000" Sample.world0).
Defined.

